(** * Graphics mapper HALs (IMapper 2.0 over GBM, IMapper 4.0 over DRM)

    A shallow embedding of [graphics/mapper/2.0/Mapper.cpp] and
    [graphics/mapper/4.0/Mapper.cpp].

    Every method of the two mappers is a validate-then-forward shim around
    calls into native libraries.  The libraries are not part of the
    repository, so they enter the model as records of functions over an
    abstract world [W]; the methods themselves are written in a small
    state monad that threads the world and records, in call order, every
    external call together with what it returned.

    Modelling boundary: [ALOGV] is compiled out in both files (the
    [LOG_NDEBUG 0] define is commented out) and is not traced; [ALOGW] and
    [ALOGE] are.  Releases performed by destructors at scope exit
    ([base::unique_fd], [sp<Fence>]) are not traced. *)

From Stdlib Require Import ZArith List String Bool Lia.
Import ListNotations.
Open Scope string_scope.
Open Scope list_scope.
Open Scope Z_scope.

(** ** Data shared by both interface versions *)

(** [Error] of android.hardware.graphics.mapper (same members in 2.0 and 4.0). *)
Inductive Error : Type :=
| NONE
| BAD_DESCRIPTOR
| BAD_BUFFER
| BAD_VALUE
| NO_RESOURCES
| UNSUPPORTED.

Definition Error_eqb (a b : Error) : bool :=
  match a, b with
  | NONE, NONE | BAD_DESCRIPTOR, BAD_DESCRIPTOR | BAD_BUFFER, BAD_BUFFER
  | BAD_VALUE, BAD_VALUE | NO_RESOURCES, NO_RESOURCES
  | UNSUPPORTED, UNSUPPORTED => true
  | _, _ => false
  end.

(** [native_handle_t]: [numFds] file descriptors followed by [numInts]
    integers, all stored in [data]. *)
Record native_handle_t : Type := mkHandle {
  numFds : Z;
  numInts : Z;
  data : list Z
}.

(** A [native_handle_t*] (also behind [void* buffer] and [hidl_handle]):
    [None] is [nullptr]. *)
Definition handle_ptr : Type := option native_handle_t.
Definition hidl_handle : Type := handle_ptr.

(** A [void*] into mapped memory, as an address; [nullptr] is 0. *)
Definition void_ptr : Type := Z.
Definition nullptr : void_ptr := 0.

(** [handle->data[0]].  The source reads it only when [numFds == 1]; for a
    handle whose [data] really holds its [numFds + numInts] entries the read
    is in range. *)
Definition data0 (h : native_handle_t) : Z := nth 0 (data h) 0.

Record Rect : Type := mkRect {
  rect_left : Z;
  rect_top : Z;
  rect_width : Z;
  rect_height : Z
}.

(** [static_cast<int32_t>] of a 64-bit value: the low 32 bits, read as
    two's complement. *)
Definition to_int32 (z : Z) : Z := (z + 2 ^ 31) mod 2 ^ 32 - 2 ^ 31.

(** Conversion to [uint32_t]. *)
Definition to_uint32 (z : Z) : Z := z mod 2 ^ 32.

(** [~m] on a [uint64_t]. *)
Definition not64 (m : Z) : Z := Z.lxor m (2 ^ 64 - 1).

(** The members of [BufferUsage] that the source names.  The enum is
    declared by the platform (android.hardware.graphics.common), not by this
    repository, so its values are a parameter of the model. *)
Record BufferUsage : Type := mkBufferUsage {
  CPU_READ_MASK : Z;
  CPU_WRITE_MASK : Z;
  GPU_TEXTURE : Z;
  GPU_RENDER_TARGET : Z;
  COMPOSER_OVERLAY : Z;
  COMPOSER_CLIENT_TARGET : Z;
  PROTECTED : Z;
  COMPOSER_CURSOR : Z;
  VIDEO_ENCODER : Z;
  CAMERA_OUTPUT : Z;
  CAMERA_INPUT : Z;
  RENDERSCRIPT : Z;
  VIDEO_DECODER : Z;
  SENSOR_DIRECT_DATA : Z;
  GPU_DATA_BUFFER : Z;
  VENDOR_MASK : Z;
  VENDOR_MASK_HI : Z
}.

(** [getValidBufferUsageMask], identical in both files. *)
Definition getValidBufferUsageMask (U : BufferUsage) : Z :=
  fold_left Z.lor
    [ CPU_WRITE_MASK U; GPU_TEXTURE U; GPU_RENDER_TARGET U; COMPOSER_OVERLAY U;
      COMPOSER_CLIENT_TARGET U; PROTECTED U; COMPOSER_CURSOR U; VIDEO_ENCODER U;
      CAMERA_OUTPUT U; CAMERA_INPUT U; RENDERSCRIPT U; VIDEO_DECODER U;
      SENSOR_DIRECT_DATA U; GPU_DATA_BUFFER U; VENDOR_MASK U; VENDOR_MASK_HI U ]
    (CPU_READ_MASK U).

(** Planar layout returned by [lockYCbCr] (2.0). *)
Record YCbCrLayout : Type := mkYCbCrLayout {
  layout_y : void_ptr;
  layout_cb : void_ptr;
  layout_cr : void_ptr;
  yStride : Z;
  cStride : Z;
  chromaStep : Z
}.

(** [YCbCrLayout{}]. *)
Definition YCbCrLayout_zero : YCbCrLayout := mkYCbCrLayout 0 0 0 0 0 0.

(** [android_ycbcr], filled in by the driver. *)
Record android_ycbcr : Type := mkAndroidYCbCr {
  ycbcr_y : void_ptr;
  ycbcr_cb : void_ptr;
  ycbcr_cr : void_ptr;
  ystride : Z;
  cstride : Z;
  chroma_step : Z
}.

(** [android_ycbcr ycbcr = {}]. *)
Definition android_ycbcr_zero : android_ycbcr := mkAndroidYCbCr 0 0 0 0 0 0.

(** [MetadataType] of IMapper 4.0. *)
Record MetadataType : Type := mkMetadataType {
  mt_name : string;
  mt_value : Z
}.

(** ** External calls and their trace *)

(** One constructor per external call the two files make; the trailing
    arguments are what the call returned. *)
Inductive Event : Type :=
| EvLogW (msg : string) (arg : Z)
| EvLogE (msg : string) (arg : Z)
| EvHandleClone (h : native_handle_t) (r : handle_ptr)
| EvHandleClose (h : handle_ptr)
| EvHandleDelete (h : handle_ptr)
| EvDup (fd r : Z)
| EvFenceWait (fd : Z) (logname : string)
| EvGbmRegister (h : handle_ptr) (r : Z)
| EvGbmUnregister (h : native_handle_t) (r : Z)
| EvGbmLock (h : native_handle_t) (usage l t w ht : Z) (r : Z) (p : void_ptr)
| EvGbmLockYCbCr (h : native_handle_t) (usage l t w ht : Z) (r : Z)
                 (out : android_ycbcr)
| EvGbmUnlock (h : native_handle_t) (r : Z)
| EvDrmRegister (kms_fd : Z) (h : handle_ptr) (r : Z)
| EvDrmFree (kms_fd : Z) (h : native_handle_t) (r : Z)
| EvDrmLock (h : native_handle_t) (r : Z) (p : void_ptr)
| EvDrmUnlock (h : native_handle_t) (r : Z).

(** Classification of events, used to say what a call did not do. *)
Definition is_register (e : Event) : bool :=
  match e with
  | EvGbmRegister _ _ | EvDrmRegister _ _ _ => true
  | _ => false
  end.

Definition is_fence_wait (e : Event) : bool :=
  match e with
  | EvFenceWait _ _ => true
  | _ => false
  end.

Definition is_driver_lock (e : Event) : bool :=
  match e with
  | EvGbmLock _ _ _ _ _ _ _ _ | EvGbmLockYCbCr _ _ _ _ _ _ _ _
  | EvDrmLock _ _ _ => true
  | _ => false
  end.

Definition is_driver_call (e : Event) : bool :=
  match e with
  | EvGbmRegister _ _ | EvGbmUnregister _ _ | EvGbmLock _ _ _ _ _ _ _ _
  | EvGbmLockYCbCr _ _ _ _ _ _ _ _ | EvGbmUnlock _ _
  | EvDrmRegister _ _ _ | EvDrmFree _ _ _ | EvDrmLock _ _ _
  | EvDrmUnlock _ _ => true
  | _ => false
  end.

(** The state threaded through a method: the world the native libraries act
    on, and the calls made so far (oldest first). *)
Record State (W : Type) : Type := mkState {
  world : W;
  trace : list Event
}.
Arguments mkState {W} _ _.
Arguments world {W} _.
Arguments trace {W} _.

Definition M (W A : Type) : Type := State W -> A * State W.

Definition ret {W A : Type} (a : A) : M W A := fun s => (a, s).

Definition bind {W A B : Type} (c : M W A) (k : A -> M W B) : M W B :=
  fun s => let (a, s') := c s in k a s'.

Notation "x <- c ;; k" := (bind c (fun x => k))
  (at level 61, c at next level, right associativity).
Notation "c ;;; k" := (bind c (fun _ => k))
  (at level 61, right associativity).

(** Record an event without touching the world (logging). *)
Definition emit {W : Type} (e : Event) : M W unit :=
  fun s => (tt, mkState (world s) (trace s ++ [e])).

(** Perform an external call [f] and record it with its result. *)
Definition extcall {W A : Type} (f : W -> A * W) (ev : A -> Event) : M W A :=
  fun s => let (a, w') := f (world s) in (a, mkState w' (trace s ++ [ev a])).

(** An external call whose result the source does not look at. *)
Definition extcall_ {W : Type} (f : W -> W) (ev : Event) : M W unit :=
  fun s => (tt, mkState (f (world s)) (trace s ++ [ev])).

(** The events a computation added to the trace. *)
Definition new_events {W : Type} (s s' : State W) : list Event :=
  skipn (List.length (trace s)) (trace s').

(** ** The native libraries *)

(** libcutils, libc and libui, as used by both mappers. *)
Record Platform (W : Type) : Type := mkPlatform {
  usage_bits : BufferUsage;
  (** [native_handle_clone]: a fresh copy, or [nullptr]. *)
  native_handle_clone : native_handle_t -> W -> handle_ptr * W;
  native_handle_close : handle_ptr -> W -> W;
  native_handle_delete : handle_ptr -> W -> W;
  (** [dup(2)]: the new descriptor, or a negative value. *)
  sys_dup : Z -> W -> Z * W;
  (** [Fence(fd).waitForever(logname)]; its status is discarded. *)
  fence_waitForever : Z -> W -> W
}.
Arguments usage_bits {W} _.
Arguments native_handle_clone {W} _ _ _.
Arguments native_handle_close {W} _ _ _.
Arguments native_handle_delete {W} _ _ _.
Arguments sys_dup {W} _ _ _.
Arguments fence_waitForever {W} _ _ _.

(** Modelled from the spec: [Fence::NO_FENCE] (libui, not in this
    repository) is the fence that holds no file descriptor and signals
    immediately; [(Fence::NO_FENCE)->dup()] therefore yields no descriptor,
    which libui represents as -1. *)
Definition NO_FENCE_dup : Z := -1.

Section Helpers.
Context {W : Type} (P : Platform W).

(** [getFenceFd], identical in both files.  [outFenceFd] is the current
    content of the caller's [unique_fd]; the result carries its content
    after the call. *)
Definition getFenceFd (fenceHandle : hidl_handle) (outFenceFd : Z)
  : M W (Error * Z) :=
  let handle := fenceHandle in
  if match handle with Some h => 1 <? numFds h | None => false end then
    emit (EvLogE "invalid fence handle with %d fds"
            match handle with Some h => numFds h | None => 0 end) ;;;
    ret (BAD_VALUE, outFenceFd)
  else
    let fenceFd :=
      match handle with
      | Some h => if numFds h =? 1 then data0 h else -1
      | None => -1
      end in
    if 0 <=? fenceFd then
      fenceFd' <- extcall (sys_dup P fenceFd) (EvDup fenceFd) ;;
      if fenceFd' <? 0 then ret (NO_RESOURCES, outFenceFd)
      else ret (NONE, fenceFd')
    else ret (NONE, fenceFd).

(** [getFenceHandle], identical in both files. *)
Definition getFenceHandle (fenceFd : Z) : hidl_handle :=
  if 0 <=? fenceFd then Some (mkHandle 1 0 [fenceFd]) else None.

End Helpers.

(** ** IMapper 2.0 over the GBM module *)

Module V2_0.

(** [IMapper::BufferDescriptorInfo] (2.0). *)
Record BufferDescriptorInfo : Type := mkInfo {
  width : Z;
  height : Z;
  layerCount : Z;
  format : Z;
  usage : Z
}.

(** [BufferDescriptor] (2.0): a vector of 32-bit words. *)
Definition BufferDescriptor : Type := list Z.

(** The GBM module ([gbm_module.h]) and the platform's descriptor encoder
    ([GrallocBufferDescriptor.h]).  The [mModule] pointer every call
    receives is part of the world. *)
Record GbmModule (W : Type) : Type := mkGbm {
  gbm_mod_register : handle_ptr -> W -> Z * W;
  gbm_mod_unregister : native_handle_t -> W -> Z * W;
  gbm_mod_lock :
    native_handle_t -> Z -> Z -> Z -> Z -> Z -> void_ptr ->
    W -> (Z * void_ptr) * W;
  gbm_mod_lock_ycbcr :
    native_handle_t -> Z -> Z -> Z -> Z -> Z -> android_ycbcr ->
    W -> (Z * android_ycbcr) * W;
  gbm_mod_unlock : native_handle_t -> W -> Z * W;
  grallocEncodeBufferDescriptor : BufferDescriptorInfo -> BufferDescriptor
}.
Arguments gbm_mod_register {W} _ _ _.
Arguments gbm_mod_unregister {W} _ _ _.
Arguments gbm_mod_lock {W} _ _ _ _ _ _ _ _ _.
Arguments gbm_mod_lock_ycbcr {W} _ _ _ _ _ _ _ _ _.
Arguments gbm_mod_unlock {W} _ _ _.
Arguments grallocEncodeBufferDescriptor {W} _ _.

Section Mapper.
Context {W : Type} (P : Platform W) (G : GbmModule W).

(** The validation chain at the top of [createDescriptor]. *)
Definition validate (descriptorInfo : BufferDescriptorInfo) : Error :=
  if (width descriptorInfo =? 0) || (height descriptorInfo =? 0)
     || (layerCount descriptorInfo =? 0)
  then BAD_VALUE
  else if negb (layerCount descriptorInfo =? 1) then UNSUPPORTED
  else if format descriptorInfo =? 0 then BAD_VALUE
  else NONE.

Definition createDescriptor (descriptorInfo : BufferDescriptorInfo)
  : M W (Error * BufferDescriptor) :=
  let error := validate descriptorInfo in
  if Error_eqb error NONE then
    let validUsageBits := getValidBufferUsageMask (usage_bits P) in
    (if negb (Z.land (usage descriptorInfo) (not64 validUsageBits) =? 0)
     then emit (EvLogW "buffer descriptor with invalid usage bits 0x%"
                  (Z.land (usage descriptorInfo) (not64 validUsageBits)))
     else ret tt) ;;;
    ret (error, grallocEncodeBufferDescriptor G descriptorInfo)
  else ret (error, []).

Definition importBuffer (rawHandle : hidl_handle)
  : M W (Error * handle_ptr) :=
  match rawHandle with
  | None => ret (BAD_BUFFER, None)
  | Some raw =>
      bufferHandle <- extcall (native_handle_clone P raw)
                              (EvHandleClone raw) ;;
      let error :=
        match bufferHandle with None => NO_RESOURCES | Some _ => NONE end in
      result <- extcall (gbm_mod_register G bufferHandle)
                        (EvGbmRegister bufferHandle) ;;
      if negb (result =? 0) then
        emit (EvLogE "gbm register failed: %d" result) ;;;
        extcall_ (native_handle_close P bufferHandle)
                 (EvHandleClose bufferHandle) ;;;
        extcall_ (native_handle_delete P bufferHandle)
                 (EvHandleDelete bufferHandle) ;;;
        ret (NO_RESOURCES, None)
      else ret (error, bufferHandle)
  end.

Definition freeBuffer (buffer : handle_ptr) : M W Error :=
  match buffer with
  | None => ret BAD_BUFFER
  | Some bufferHandle =>
      result <- extcall (gbm_mod_unregister G bufferHandle)
                        (EvGbmUnregister bufferHandle) ;;
      if negb (result =? 0) then
        emit (EvLogE "gbm unregister failed: %d" result) ;;;
        ret UNSUPPORTED
      else
        extcall_ (native_handle_close P (Some bufferHandle))
                 (EvHandleClose (Some bufferHandle)) ;;;
        extcall_ (native_handle_delete P (Some bufferHandle))
                 (EvHandleDelete (Some bufferHandle)) ;;;
        ret NONE
  end.

(** [static_cast<int32_t>(pUsage | cUsage)] of [lock] and [lockYCbCr]. *)
Definition lock_usage (cpuUsage : Z) : Z :=
  let pUsage := cpuUsage in
  let cUsage := Z.land cpuUsage (not64 (CPU_WRITE_MASK (usage_bits P))) in
  to_int32 (Z.lor pUsage cUsage).

Definition lock (buffer : handle_ptr) (cpuUsage : Z) (accessRegion : Rect)
                (acquireFence : hidl_handle) : M W (Error * void_ptr) :=
  match buffer with
  | None => ret (BAD_BUFFER, nullptr)
  | Some bufferHandle =>
      let usage := lock_usage cpuUsage in
      let accessRect := accessRegion in
      r <- getFenceFd P acquireFence (-1) ;;
      let (error, fenceFd) := (r : Error * Z) in
      if negb (Error_eqb error NONE) then ret (error, nullptr)
      else
        extcall_ (fence_waitForever P fenceFd)
                 (EvFenceWait fenceFd "Mapper::lock") ;;;
        res <- extcall
                 (gbm_mod_lock G bufferHandle usage
                    (rect_left accessRect) (rect_top accessRect)
                    (rect_width accessRect) (rect_height accessRect)
                    nullptr)
                 (fun rp => EvGbmLock bufferHandle usage
                    (rect_left accessRect) (rect_top accessRect)
                    (rect_width accessRect) (rect_height accessRect)
                    (fst rp) (snd rp)) ;;
        let (result, data) := (res : Z * void_ptr) in
        if negb (result =? 0) then
          emit (EvLogE "gbm_lock() returned %d" result) ;;;
          ret (UNSUPPORTED, nullptr)
        else ret (error, data)
  end.

Definition lockYCbCr (buffer : handle_ptr) (cpuUsage : Z)
                     (accessRegion : Rect) (acquireFence : hidl_handle)
  : M W (Error * YCbCrLayout) :=
  match buffer with
  | None => ret (BAD_BUFFER, YCbCrLayout_zero)
  | Some bufferHandle =>
      let usage := lock_usage cpuUsage in
      let accessRect := accessRegion in
      r <- getFenceFd P acquireFence (-1) ;;
      let (error, fenceFd) := (r : Error * Z) in
      if negb (Error_eqb error NONE) then ret (error, YCbCrLayout_zero)
      else
        extcall_ (fence_waitForever P fenceFd)
                 (EvFenceWait fenceFd "Mapper::lockYCbCr") ;;;
        res <- extcall
                 (gbm_mod_lock_ycbcr G bufferHandle usage
                    (rect_left accessRect) (rect_top accessRect)
                    (rect_width accessRect) (rect_height accessRect)
                    android_ycbcr_zero)
                 (fun rp => EvGbmLockYCbCr bufferHandle usage
                    (rect_left accessRect) (rect_top accessRect)
                    (rect_width accessRect) (rect_height accessRect)
                    (fst rp) (snd rp)) ;;
        let (result, ycbcr) := (res : Z * android_ycbcr) in
        if negb (result =? 0) then
          emit (EvLogE "gbm_mod_lock_ycbcr() returned %d" result) ;;;
          ret (UNSUPPORTED, YCbCrLayout_zero)
        else
          ret (error,
               mkYCbCrLayout (ycbcr_y ycbcr) (ycbcr_cb ycbcr)
                 (ycbcr_cr ycbcr) (to_uint32 (ystride ycbcr))
                 (to_uint32 (cstride ycbcr))
                 (to_uint32 (chroma_step ycbcr)))
  end.

Definition unlock (buffer : handle_ptr) : M W (Error * hidl_handle) :=
  match buffer with
  | None => ret (BAD_BUFFER, None)
  | Some bufferHandle =>
      result <- extcall (gbm_mod_unlock G bufferHandle)
                        (EvGbmUnlock bufferHandle) ;;
      if negb (result =? 0) then
        emit (EvLogE "gralloc0 unlock failed: %d" result) ;;;
        ret (UNSUPPORTED, None)
      else
        let fenceFd := NO_FENCE_dup in
        ret (NONE, getFenceHandle fenceFd)
  end.

End Mapper.

End V2_0.

(** ** IMapper 4.0 over the DRM gralloc binding *)

Module V4_0.

(** [IMapper::BufferDescriptorInfo] (4.0). *)
Record BufferDescriptorInfo : Type := mkInfo {
  name : string;
  width : Z;
  height : Z;
  layerCount : Z;
  format : Z;
  usage : Z;
  reservedSize : Z
}.

(** [hidl_vec<uint8_t>]: descriptors and encoded metadata. *)
Definition hidl_vec_u8 : Type := list Z.
Definition BufferDescriptor : Type := hidl_vec_u8.

Record MetadataTypeDescription : Type := mkDescription {
  metadataType : MetadataType;
  description : string;
  isGettable : bool;
  isSettable : bool
}.

(** The DRM gralloc binding ([drm_gralloc.h]).  [drm_free] is given a
    status like its siblings; the source discards whatever it returns. *)
Record DrmGralloc (W : Type) : Type := mkDrm {
  drm_register : Z -> handle_ptr -> W -> Z * W;
  drm_free : Z -> native_handle_t -> W -> Z * W;
  drm_lock : native_handle_t -> void_ptr -> W -> (Z * void_ptr) * W;
  drm_unlock : native_handle_t -> W -> Z * W
}.
Arguments drm_register {W} _ _ _ _.
Arguments drm_free {W} _ _ _ _.
Arguments drm_lock {W} _ _ _ _.
Arguments drm_unlock {W} _ _ _.

(** The platform's [android::gralloc4] helpers ([gralloctypes/Gralloc4.h])
    and the two enum members the source names.  An encoder receives the
    vector it writes into and returns its status with the vector's new
    content. *)
Record Gralloc4 : Type := mkGralloc4 {
  encodeBufferDescriptorInfo :
    BufferDescriptorInfo -> BufferDescriptor -> Z * BufferDescriptor;
  isStandardMetadataType : MetadataType -> bool;
  getStandardMetadataTypeValue : MetadataType -> Z;
  encodeDataspace : Z -> hidl_vec_u8 -> Z * hidl_vec_u8;
  StandardMetadataType_DATASPACE : Z;
  Dataspace_UNKNOWN : Z
}.

(** [MetadataDump] and [BufferDump], the result types of the dump methods. *)
Record MetadataDump : Type := mkMetadataDump {
  dump_metadataType : MetadataType;
  dump_metadata : hidl_vec_u8
}.

Record BufferDump : Type := mkBufferDump {
  metadataDump : list MetadataDump
}.

Section Mapper.
Context {W : Type} (P : Platform W) (D : DrmGralloc W) (T : Gralloc4).
(** The mapper's only field: the DRM device opened by its constructor
    (negative when the open failed). *)
Variable kms_fd : Z.

(** The validation chain at the top of [createDescriptor]. *)
Definition validate (descriptorInfo : BufferDescriptorInfo) : Error :=
  if (width descriptorInfo =? 0) || (height descriptorInfo =? 0)
     || (layerCount descriptorInfo =? 0)
  then BAD_VALUE
  else if negb (layerCount descriptorInfo =? 1) then UNSUPPORTED
  else if format descriptorInfo =? 0 then BAD_VALUE
  else NONE.

Definition createDescriptor (descriptorInfo : BufferDescriptorInfo)
  : M W (Error * BufferDescriptor) :=
  let error := validate descriptorInfo in
  if Error_eqb error NONE then
    let validUsageBits := getValidBufferUsageMask (usage_bits P) in
    (if negb (Z.land (usage descriptorInfo) (not64 validUsageBits) =? 0)
     then emit (EvLogW "buffer descriptor with invalid usage bits 0x%"
                  (Z.land (usage descriptorInfo) (not64 validUsageBits)))
     else ret tt) ;;;
    let (r, descriptor) :=
      encodeBufferDescriptorInfo T descriptorInfo [] in
    if negb (r =? 0) then
      emit (EvLogE "Failed to createDescriptor. Failed to encode: %d." r) ;;;
      ret (BAD_VALUE, descriptor)
    else ret (error, descriptor)
  else ret (error, []).

Definition importBuffer (rawHandle : hidl_handle)
  : M W (Error * handle_ptr) :=
  match rawHandle with
  | None => ret (BAD_BUFFER, None)
  | Some raw =>
      bufferHandle <- extcall (native_handle_clone P raw)
                              (EvHandleClone raw) ;;
      let error :=
        match bufferHandle with None => NO_RESOURCES | Some _ => NONE end in
      result <- extcall (drm_register D kms_fd bufferHandle)
                        (EvDrmRegister kms_fd bufferHandle) ;;
      if negb (result =? 0) then
        emit (EvLogE "register failed: %d" result) ;;;
        extcall_ (native_handle_close P bufferHandle)
                 (EvHandleClose bufferHandle) ;;;
        extcall_ (native_handle_delete P bufferHandle)
                 (EvHandleDelete bufferHandle) ;;;
        ret (NO_RESOURCES, None)
      else ret (error, bufferHandle)
  end.

Definition freeBuffer (buffer : handle_ptr) : M W Error :=
  match buffer with
  | None => ret BAD_BUFFER
  | Some bufferHandle =>
      extcall (drm_free D kms_fd bufferHandle)
              (EvDrmFree kms_fd bufferHandle) ;;;
      extcall_ (native_handle_close P (Some bufferHandle))
               (EvHandleClose (Some bufferHandle)) ;;;
      extcall_ (native_handle_delete P (Some bufferHandle))
               (EvHandleDelete (Some bufferHandle)) ;;;
      ret NONE
  end.

(** [cpuUsage] and [accessRegion] are unnamed parameters in the source:
    the body cannot refer to them. *)
Definition lock (buffer : handle_ptr) (_cpuUsage : Z) (_accessRegion : Rect)
                (acquireFence : hidl_handle) : M W (Error * void_ptr) :=
  match buffer with
  | None => ret (BAD_BUFFER, nullptr)
  | Some bufferHandle =>
      r <- getFenceFd P acquireFence (-1) ;;
      let (error, fenceFd) := (r : Error * Z) in
      if negb (Error_eqb error NONE) then ret (error, nullptr)
      else
        extcall_ (fence_waitForever P fenceFd)
                 (EvFenceWait fenceFd "Mapper::lock") ;;;
        res <- extcall (drm_lock D bufferHandle nullptr)
                       (fun rp => EvDrmLock bufferHandle (fst rp) (snd rp)) ;;
        let (result, data) := (res : Z * void_ptr) in
        if negb (result =? 0) then
          emit (EvLogE "drm_lock() returned %d" result) ;;;
          ret (UNSUPPORTED, nullptr)
        else ret (error, data)
  end.

Definition unlock (buffer : handle_ptr) : M W (Error * hidl_handle) :=
  match buffer with
  | None => ret (BAD_BUFFER, None)
  | Some bufferHandle =>
      result <- extcall (drm_unlock D bufferHandle)
                        (EvDrmUnlock bufferHandle) ;;
      if negb (result =? 0) then
        emit (EvLogE "Mapper unlock failed: %d" result) ;;;
        ret (UNSUPPORTED, None)
      else
        let fenceFd := NO_FENCE_dup in
        ret (NONE, getFenceHandle fenceFd)
  end.


(** The callback takes both counts as [uint32_t]; the handle's fields are
    [int]. *)
Definition getTransportSize (buffer : handle_ptr) : M W (Error * Z * Z) :=
  match buffer with
  | None => ret (BAD_BUFFER, 0, 0)
  | Some bufferHandle =>
      ret (NONE, to_uint32 (numFds bufferHandle),
           to_uint32 (numInts bufferHandle))
  end.

Definition flushLockedBuffer (buffer : handle_ptr)
  : M W (Error * hidl_handle) :=
  match buffer with
  | None => ret (BAD_BUFFER, None)
  | Some bufferHandle =>
      result <- extcall (drm_unlock D bufferHandle)
                        (EvDrmUnlock bufferHandle) ;;
      if negb (result =? 0) then
        emit (EvLogE "Mapper unlock failed: %d" result) ;;;
        ret (UNSUPPORTED, None)
      else
        let fenceFd := NO_FENCE_dup in
        ret (NONE, getFenceHandle fenceFd)
  end.


Definition isSupported (_descriptor : BufferDescriptorInfo)
  : M W (Error * bool) :=
  ret (NONE, true).

Definition get (buffer : handle_ptr) (metadataType : MetadataType)
  : M W (Error * hidl_vec_u8) :=
  let encodedMetadata : hidl_vec_u8 := [] in
  match buffer with
  | None => ret (BAD_BUFFER, encodedMetadata)
  | Some _ =>
      if isStandardMetadataType T metadataType
         && (getStandardMetadataTypeValue T metadataType
             =? StandardMetadataType_DATASPACE T)
      then
        let encodedMetadata :=
          snd (encodeDataspace T (Dataspace_UNKNOWN T) encodedMetadata) in
        ret (NONE, encodedMetadata)
      else ret (UNSUPPORTED, encodedMetadata)
  end.

Definition set (buffer : handle_ptr) (_metadataType : MetadataType)
               (_metadata : hidl_vec_u8) : M W Error :=
  match buffer with
  | None => ret BAD_BUFFER
  | Some _ => ret UNSUPPORTED
  end.

Definition getFromBufferDescriptorInfo
    (_descriptor : BufferDescriptorInfo) (_metadataType : MetadataType)
  : M W (Error * hidl_vec_u8) :=
  ret (UNSUPPORTED, []).

Definition listSupportedMetadataTypes
  : M W (Error * list MetadataTypeDescription) :=
  ret (NONE, []).

Definition getReservedRegion (buffer : handle_ptr)
  : M W (Error * void_ptr * Z) :=
  match buffer with
  | None => ret (BAD_BUFFER, nullptr, 0)
  | Some _ => ret (UNSUPPORTED, nullptr, 0)
  end.


Definition dumpBuffers : M W (Error * list BufferDump) :=
  ret (NONE, []).

End Mapper.

End V4_0.

(** ** A simulated device

    A small executable instance of the native libraries, on which the
    methods can be run: the world counts the buffers currently registered
    with the driver. *)

Module Sim.

Definition World : Type := Z.

(** The values android.hardware.graphics.common gives the usage bits. *)
Definition usage : BufferUsage :=
  {| CPU_READ_MASK := 15;
     CPU_WRITE_MASK := Z.shiftl 15 4;
     GPU_TEXTURE := Z.shiftl 1 8;
     GPU_RENDER_TARGET := Z.shiftl 1 9;
     COMPOSER_OVERLAY := Z.shiftl 1 11;
     COMPOSER_CLIENT_TARGET := Z.shiftl 1 12;
     PROTECTED := Z.shiftl 1 14;
     COMPOSER_CURSOR := Z.shiftl 1 15;
     VIDEO_ENCODER := Z.shiftl 1 16;
     CAMERA_OUTPUT := Z.shiftl 1 17;
     CAMERA_INPUT := Z.shiftl 1 18;
     RENDERSCRIPT := Z.shiftl 1 20;
     VIDEO_DECODER := Z.shiftl 1 22;
     SENSOR_DIRECT_DATA := Z.shiftl 1 23;
     GPU_DATA_BUFFER := Z.shiftl 1 24;
     VENDOR_MASK := Z.shiftl 15 28;
     VENDOR_MASK_HI := Z.shiftl 65535 48 |}.

(** Cloning always succeeds; [dup] hands out the descriptor 100 above. *)
Definition platform : Platform World :=
  {| usage_bits := usage;
     native_handle_clone := fun h w => (Some h, w);
     native_handle_close := fun _ w => w;
     native_handle_delete := fun _ w => w;
     sys_dup := fun fd w => (fd + 100, w);
     fence_waitForever := fun _ w => w |}.

Definition EINVAL : Z := 22.

(** Status of a driver call that needs a registered buffer. *)
Definition need_registered (w : World) : Z :=
  if 0 <? w then 0 else - EINVAL.

Definition gbm : V2_0.GbmModule World :=
  {| V2_0.gbm_mod_register := fun h w =>
       match h with Some _ => (0, w + 1) | None => (- EINVAL, w) end;
     V2_0.gbm_mod_unregister := fun _ w =>
       (need_registered w, if 0 <? w then w - 1 else w);
     V2_0.gbm_mod_lock := fun _ _ _ _ _ _ p w =>
       (need_registered w, if 0 <? w then 4096 else p, w);
     V2_0.gbm_mod_lock_ycbcr := fun _ _ _ _ wd ht o w =>
       (need_registered w,
        if 0 <? w
        then mkAndroidYCbCr 4096 (4096 + wd * ht) (4096 + wd * ht + 1) wd wd 2
        else o, w);
     V2_0.gbm_mod_unlock := fun _ w => (need_registered w, w);
     V2_0.grallocEncodeBufferDescriptor := fun i =>
       [ V2_0.width i; V2_0.height i; V2_0.layerCount i; V2_0.format i;
         V2_0.usage i mod 2 ^ 32; V2_0.usage i / 2 ^ 32 ] |}.

Definition drm : V4_0.DrmGralloc World :=
  {| V4_0.drm_register := fun _ h w =>
       match h with Some _ => (0, w + 1) | None => (- EINVAL, w) end;
     V4_0.drm_free := fun _ _ w =>
       (need_registered w, if 0 <? w then w - 1 else w);
     V4_0.drm_lock := fun _ p w =>
       (need_registered w, if 0 <? w then 4096 else p, w);
     V4_0.drm_unlock := fun _ w => (need_registered w, w) |}.

Definition standard_name : string :=
  "android.hardware.graphics.common.StandardMetadataType".

(** Four bytes, least significant first. *)
Definition le32 (z : Z) : list Z :=
  [ z mod 256; (z / 256) mod 256; (z / 65536) mod 256;
    (z / 16777216) mod 256 ].

Definition gralloc4 : V4_0.Gralloc4 :=
  {| V4_0.encodeBufferDescriptorInfo := fun i _ =>
       (0, le32 (V4_0.width i) ++ le32 (V4_0.height i)
           ++ le32 (V4_0.layerCount i) ++ le32 (V4_0.format i));
     V4_0.isStandardMetadataType := fun mt =>
       String.eqb (mt_name mt) standard_name;
     V4_0.getStandardMetadataTypeValue := mt_value;
     V4_0.encodeDataspace := fun d _ => (0, le32 d);
     V4_0.StandardMetadataType_DATASPACE := 17;
     V4_0.Dataspace_UNKNOWN := 0 |}.

(** The same helpers with a descriptor encoder that reports an error. *)
Definition gralloc4_encode_fails : V4_0.Gralloc4 :=
  {| V4_0.encodeBufferDescriptorInfo := fun _ v => (- EINVAL, v);
     V4_0.isStandardMetadataType := V4_0.isStandardMetadataType gralloc4;
     V4_0.getStandardMetadataTypeValue := mt_value;
     V4_0.encodeDataspace := V4_0.encodeDataspace gralloc4;
     V4_0.StandardMetadataType_DATASPACE := 17;
     V4_0.Dataspace_UNKNOWN := 0 |}.

(** Nothing registered yet, nothing called yet. *)
Definition fresh : State World := mkState 0 [].
(** One buffer registered. *)
Definition registered : State World := mkState 1 [].

(** A buffer handle with one file descriptor and two integers. *)
Definition buf : native_handle_t := mkHandle 1 2 [7; 640; 480].
(** A fence handle holding descriptor 9. *)
Definition fence9 : native_handle_t := mkHandle 1 0 [9].
(** A malformed fence handle holding two descriptors. *)
Definition fence2 : native_handle_t := mkHandle 2 0 [9; 10].

Definition kms_fd : Z := 3.

Definition DATASPACE : MetadataType := mkMetadataType standard_name 17.
Definition SMPTE2086 : MetadataType := mkMetadataType standard_name 18.

End Sim.

(** ** Construction and destruction of the two mappers

    The constructors and destructors talk to a different part of the
    system (module set-up, system properties, [open] and [close]); their
    calls are recorded in a trace of their own. *)

Module Lifecycle.

Inductive SysEvent : Type :=
| SysLogE (msg : string) (arg : Z)
| SysLogEs (msg : string) (arg : string)
| SysGbmInit (r : Z)
| SysGbmDeinit
| SysPropertyGet (key default value : string)
| SysOpen (path : string) (flags : Z) (r : Z)
| SysClose (fd : Z).

(** [gbm_module_t], of which the source touches one field. *)
Record gbm_module_t : Type := mkGbmModule {
  gbm : void_ptr
}.

(** What the constructors and destructors call.  [O_RDWR] and [O_CLOEXEC]
    are the libc's. *)
Record Sys (W : Type) : Type := mkSys {
  gbm_mod_init : gbm_module_t -> W -> (Z * gbm_module_t) * W;
  gbm_mod_deinit : gbm_module_t -> W -> W;
  property_get : string -> string -> W -> string * W;
  sys_open : string -> Z -> W -> Z * W;
  sys_close : Z -> W -> W;
  O_RDWR : Z;
  O_CLOEXEC : Z
}.
Arguments gbm_mod_init {W} _ _ _.
Arguments gbm_mod_deinit {W} _ _ _.
Arguments property_get {W} _ _ _ _.
Arguments sys_open {W} _ _ _ _.
Arguments sys_close {W} _ _ _.
Arguments O_RDWR {W} _.
Arguments O_CLOEXEC {W} _.

(** The 2.0 mapper object: its [mModule] pointer ([None] is [nullptr]). *)
Record Mapper2 : Type := mkMapper2 {
  mModule : option gbm_module_t
}.

(** The 4.0 mapper object. *)
Record Mapper4 : Type := mkMapper4 {
  kms_fd : Z
}.

Section Lifecycle.
Context {W : Type} (sys : Sys W).

Definition LState : Type := W * list SysEvent.

(** [Mapper::Mapper()] of 2.0. *)
Definition Mapper2_new (st : LState) : Mapper2 * LState :=
  let (w, tr) := st in
  let mModule := mkGbmModule nullptr in
  let '(error, mModule, w) := gbm_mod_init sys mModule w in
  let tr := tr ++ [SysGbmInit error] in
  let tr :=
    if negb (error =? 0) then tr ++ [SysLogE "Failed Mapper() %d" error]
    else tr in
  (mkMapper2 (Some mModule), (w, tr)).

(** [Mapper::~Mapper()] of 2.0; the [delete mModule] that follows the
    module's shutdown frees memory only and is not traced. *)
Definition Mapper2_delete (this : Mapper2) (st : LState) : LState :=
  let (w, tr) := st in
  match mModule this with
  | Some m => (gbm_mod_deinit sys m w, tr ++ [SysGbmDeinit])
  | None => (w, tr)
  end.

(** [Mapper::Mapper()] of 4.0. *)
Definition Mapper4_new (st : LState) : Mapper4 * LState :=
  let (w, tr) := st in
  let (path, w) := property_get sys "gralloc.drm.kms" "/dev/dri/card0" w in
  let tr := tr ++ [SysPropertyGet "gralloc.drm.kms" "/dev/dri/card0" path] in
  let flags := Z.lor (O_RDWR sys) (O_CLOEXEC sys) in
  let (fd, w) := sys_open sys path flags w in
  let tr := tr ++ [SysOpen path flags fd] in
  let tr :=
    if fd <? 0 then tr ++ [SysLogEs "failed to open %s" path] else tr in
  (mkMapper4 fd, (w, tr)).

(** [Mapper::~Mapper()] of 4.0. *)
Definition Mapper4_delete (this : Mapper4) (st : LState) : LState :=
  let (w, tr) := st in
  if 0 <=? kms_fd this then
    (sys_close sys (kms_fd this) w, tr ++ [SysClose (kms_fd this)])
  else (w, tr).

End Lifecycle.

End Lifecycle.

(** ** Simulated faults

    Variations of the simulated device on which the failure paths run. *)

Module SimFaults.

Definition ENOMEM : Z := 12.
Definition EMFILE : Z := 24.

(** No descriptor can be duplicated. *)
Definition platform_no_dup : Platform Sim.World :=
  {| usage_bits := Sim.usage;
     native_handle_clone := fun h w => (Some h, w);
     native_handle_close := fun _ w => w;
     native_handle_delete := fun _ w => w;
     sys_dup := fun _ w => (-1, w);
     fence_waitForever := fun _ w => w |}.

(** No handle can be cloned. *)
Definition platform_no_clone : Platform Sim.World :=
  {| usage_bits := Sim.usage;
     native_handle_clone := fun _ w => (None, w);
     native_handle_close := fun _ w => w;
     native_handle_delete := fun _ w => w;
     sys_dup := fun fd w => (fd + 100, w);
     fence_waitForever := fun _ w => w |}.

(** A GBM module that cannot register another buffer. *)
Definition gbm_full : V2_0.GbmModule Sim.World :=
  {| V2_0.gbm_mod_register := fun _ w => (- ENOMEM, w);
     V2_0.gbm_mod_unregister := V2_0.gbm_mod_unregister Sim.gbm;
     V2_0.gbm_mod_lock := V2_0.gbm_mod_lock Sim.gbm;
     V2_0.gbm_mod_lock_ycbcr := V2_0.gbm_mod_lock_ycbcr Sim.gbm;
     V2_0.gbm_mod_unlock := V2_0.gbm_mod_unlock Sim.gbm;
     V2_0.grallocEncodeBufferDescriptor :=
       V2_0.grallocEncodeBufferDescriptor Sim.gbm |}.

(** A DRM binding that cannot register another buffer. *)
Definition drm_full : V4_0.DrmGralloc Sim.World :=
  {| V4_0.drm_register := fun _ _ w => (- ENOMEM, w);
     V4_0.drm_free := V4_0.drm_free Sim.drm;
     V4_0.drm_lock := V4_0.drm_lock Sim.drm;
     V4_0.drm_unlock := V4_0.drm_unlock Sim.drm |}.

(** A system on which module set-up and [open] succeed; [open] hands out
    descriptor 5. *)
Definition sys_ok : Lifecycle.Sys Sim.World :=
  {| Lifecycle.gbm_mod_init := fun m w => (0, Lifecycle.mkGbmModule 8192, w);
     Lifecycle.gbm_mod_deinit := fun _ w => w;
     Lifecycle.property_get := fun _ d w => (d, w);
     Lifecycle.sys_open := fun _ _ w => (5, w);
     Lifecycle.sys_close := fun _ w => w;
     Lifecycle.O_RDWR := 2;
     Lifecycle.O_CLOEXEC := 524288 |}.

(** A system without a DRM device and without a working GBM back end. *)
Definition sys_no_device : Lifecycle.Sys Sim.World :=
  {| Lifecycle.gbm_mod_init := fun m w => (- Sim.EINVAL, m, w);
     Lifecycle.gbm_mod_deinit := fun _ w => w;
     Lifecycle.property_get := fun _ d w => (d, w);
     Lifecycle.sys_open := fun _ _ w => (-1, w);
     Lifecycle.sys_close := fun _ w => w;
     Lifecycle.O_RDWR := 2;
     Lifecycle.O_CLOEXEC := 524288 |}.

(** A fence handle whose single entry is not a descriptor. *)
Definition fence_neg : native_handle_t := mkHandle 1 0 [-5].

End SimFaults.

(** ** Vocabulary of the statements *)

(** What [createDescriptor] logs about the usage bits of a descriptor that
    passed validation: one warning carrying the bits outside the valid
    mask, when there are any. *)
Definition usage_warning (U : BufferUsage) (usage : Z) : list Event :=
  let invalid := Z.land usage (not64 (getValidBufferUsageMask U)) in
  if invalid =? 0 then []
  else [EvLogW "buffer descriptor with invalid usage bits 0x%" invalid].

(** What [lock] logs after the driver call, by the driver's status. *)
Definition lock_failure_log (msg : string) (result : Z) : list Event :=
  if result =? 0 then [] else [EvLogE msg result].

(** Events that give a native handle back: [native_handle_close] and
    [native_handle_delete]. *)
Definition is_release (e : Event) : bool :=
  match e with
  | EvHandleClose _ | EvHandleDelete _ => true
  | _ => false
  end.

(** The part of a trace that concerns synchronisation: fence waits and
    driver calls. *)
Definition sync_events (evs : list Event) : list Event :=
  filter (fun e => is_driver_call e || is_fence_wait e) evs.

(** Either nothing, or one fence wait followed by one driver lock call. *)
Definition wait_then_lock (evs : list Event) : bool :=
  match evs with
  | [] => true
  | [EvFenceWait _ _; e] => is_driver_lock e
  | _ => false
  end.

(** The seventeen usage flags [getValidBufferUsageMask] names. *)
Definition usage_flags (U : BufferUsage) : list Z :=
  [ CPU_READ_MASK U; CPU_WRITE_MASK U; GPU_TEXTURE U; GPU_RENDER_TARGET U;
    COMPOSER_OVERLAY U; COMPOSER_CLIENT_TARGET U; PROTECTED U;
    COMPOSER_CURSOR U; VIDEO_ENCODER U; CAMERA_OUTPUT U; CAMERA_INPUT U;
    RENDERSCRIPT U; VIDEO_DECODER U; SENSOR_DIRECT_DATA U; GPU_DATA_BUFFER U;
    VENDOR_MASK U; VENDOR_MASK_HI U ].

(** The flags are values of a [uint64_t] bit field. *)
Definition flags_are_u64 (U : BufferUsage) : Prop :=
  Forall (fun f => 0 <= f < 2 ^ 64) (usage_flags U).

(** Log entries, as opposed to calls into a native library. *)
Definition is_log (e : Event) : bool :=
  match e with
  | EvLogW _ _ | EvLogE _ _ => true
  | _ => false
  end.

(** A usage mask put together by or-ing flags. *)
Definition or_flags (l : list Z) : Z := fold_left Z.lor l 0.

(** The warnings among the log entries ([ALOGW]). *)
Definition is_warning (e : Event) : bool :=
  match e with
  | EvLogW _ _ => true
  | _ => false
  end.

(** * Properties *)

(** ** Running the monad *)

Ltac run := cbv [bind ret emit extcall extcall_].

Lemma new_events_app {W : Type} (s : State W) (w : W) (evs : list Event) :
  new_events s (mkState w (trace s ++ evs)) = evs.
Proof.
  unfold new_events; simpl.
  rewrite skipn_app, skipn_all, Nat.sub_diag; reflexivity.
Qed.

Lemma new_events_refl {W : Type} (s : State W) : new_events s s = [].
Proof. unfold new_events. apply skipn_all. Qed.

Lemma state_eta {W : Type} (s : State W) :
  mkState (world s) (trace s) = s.
Proof. destruct s; reflexivity. Qed.

Lemma Error_eqb_eq (a b : Error) : Error_eqb a b = true <-> a = b.
Proof. destruct a, b; simpl; split; intro H; congruence. Qed.

(** ** Bit-level facts about the usage passed to the GBM driver *)

Lemma lor_land_absorb (x m : Z) : Z.lor x (Z.land x m) = x.
Proof.
  apply Z.bits_inj'; intros n _.
  rewrite Z.lor_spec, Z.land_spec.
  destruct (Z.testbit x n); reflexivity.
Qed.

(** Whatever the platform's [CPU_WRITE_MASK] is, [pUsage | cUsage] is
    [cpuUsage] again, so the driver gets its low 32 bits. *)
Lemma lock_usage_truncates {W : Type} (P : Platform W) (cpuUsage : Z) :
  V2_0.lock_usage P cpuUsage = to_int32 cpuUsage.
Proof. unfold V2_0.lock_usage. rewrite lor_land_absorb. reflexivity. Qed.

Lemma to_int32_small (z : Z) :
  - 2 ^ 31 <= z < 2 ^ 31 -> to_int32 z = z.
Proof.
  intro H. unfold to_int32.
  rewrite Z.mod_small by lia. lia.
Qed.

(** ** The fence helper *)

(** A fence handle with more than one descriptor is refused before
    anything is duplicated. *)
Lemma getFenceFd_many_fds {W : Type} (P : Platform W)
      (f : native_handle_t) (o : Z) (s : State W) :
  1 < numFds f ->
  getFenceFd P (Some f) o s =
    ((BAD_VALUE, o),
     mkState (world s)
       (trace s ++ [EvLogE "invalid fence handle with %d fds" (numFds f)])).
Proof.
  intro H. unfold getFenceFd.
  apply Z.ltb_lt in H. rewrite H. reflexivity.
Qed.

(** [getFenceFd] only ever logs or duplicates a descriptor. *)
Lemma getFenceFd_events {W : Type} (P : Platform W)
      (f : hidl_handle) (o : Z) (s : State W) :
  exists evs,
    trace (snd (getFenceFd P f o s)) = trace s ++ evs /\
    forallb (fun e => negb (is_driver_call e || is_fence_wait e)) evs = true.
Proof.
  unfold getFenceFd.
  destruct (match f with Some h => 1 <? numFds h | None => false end).
  - run. simpl. eexists; split; [reflexivity | reflexivity].
  - destruct (0 <=? _).
    + run. destruct (sys_dup P _ (world s)) as [fd' w'].
      destruct (fd' <? 0); simpl;
        (eexists; split; [reflexivity | reflexivity]).
    + run. simpl. exists []. rewrite app_nil_r. split; reflexivity.
Qed.

(** Which fences [getFenceFd] accepts: no handle at all, ... *)
Lemma getFenceFd_no_fence {W : Type} (P : Platform W) (o : Z) (s : State W) :
  getFenceFd P None o s = ((NONE, -1), s).
Proof. reflexivity. Qed.

(** ... or a handle with one descriptor that [dup] manages to duplicate. *)
Lemma getFenceFd_one_fd {W : Type} (P : Platform W)
      (f : native_handle_t) (o : Z) (s : State W) :
  numFds f = 1 ->
  0 <= data0 f ->
  0 <= fst (sys_dup P (data0 f) (world s)) ->
  getFenceFd P (Some f) o s =
    ((NONE, fst (sys_dup P (data0 f) (world s))),
     mkState (snd (sys_dup P (data0 f) (world s)))
       (trace s
        ++ [EvDup (data0 f) (fst (sys_dup P (data0 f) (world s)))])).
Proof.
  intros Hn Hd Hdup. unfold getFenceFd. rewrite Hn. simpl.
  apply Z.leb_le in Hd. rewrite Hd. run.
  destruct (sys_dup P (data0 f) (world s)) as [fd' w']. simpl in *.
  assert (E : (fd' <? 0) = false) by (apply Z.ltb_ge; exact Hdup).
  rewrite E. reflexivity.
Qed.

(** ** freeBuffer *)

(** C1, as amended.  [freeBuffer] answers [BAD_BUFFER] for a null handle in
    both mappers.  For a non-null handle the 2.0 mapper answers
    [UNSUPPORTED] when [gbm_mod_unregister] reports a non-zero status and
    [NONE] when it reports zero; the 4.0 mapper answers [NONE] whatever
    [drm_free] reports. *)
Theorem freeBuffer_result {W : Type} (P : Platform W)
    (G : V2_0.GbmModule W) (D : V4_0.DrmGralloc W) (kms_fd : Z)
    (buffer : handle_ptr) (s : State W) :
  fst (V2_0.freeBuffer P G buffer s) =
    match buffer with
    | None => BAD_BUFFER
    | Some h =>
        if fst (V2_0.gbm_mod_unregister G h (world s)) =? 0
        then NONE else UNSUPPORTED
    end
  /\ fst (V4_0.freeBuffer P D kms_fd buffer s) =
    match buffer with
    | None => BAD_BUFFER
    | Some _ => NONE
    end.
Proof.
  split.
  - unfold V2_0.freeBuffer. destruct buffer as [h|]; [|reflexivity].
    run. destruct (V2_0.gbm_mod_unregister G h (world s)) as [r w'].
    simpl. destruct (r =? 0); reflexivity.
  - unfold V4_0.freeBuffer. destruct buffer as [h|]; [|reflexivity].
    run. destruct (V4_0.drm_free D kms_fd h (world s)) as [r w'].
    reflexivity.
Qed.

(** C1 as stated fails on the 4.0 mapper: on the simulated device with no
    buffer registered [drm_free] reports a failure, yet [freeBuffer] does
    not answer [UNSUPPORTED]. *)
Lemma freeBuffer_v4_ignores_driver_failure :
  ~ (fst (V4_0.drm_free Sim.drm Sim.kms_fd Sim.buf (world Sim.fresh)) <> 0 ->
     fst (V4_0.freeBuffer Sim.platform Sim.drm Sim.kms_fd (Some Sim.buf)
            Sim.fresh) = UNSUPPORTED).
Proof.
  intro H.
  assert (E : fst (V4_0.freeBuffer Sim.platform Sim.drm Sim.kms_fd
                     (Some Sim.buf) Sim.fresh) = NONE) by reflexivity.
  rewrite E in H.
  assert (F : NONE = UNSUPPORTED) by (apply H; vm_compute; discriminate).
  discriminate F.
Qed.

(** ** importBuffer *)

(** C7.  [importBuffer] of a null raw handle answers [BAD_BUFFER] with a
    null out-handle and leaves the state as it found it: the world is
    untouched and no call, in particular no registration, was made. *)
Theorem importBuffer_null {W : Type} (P : Platform W)
    (G : V2_0.GbmModule W) (D : V4_0.DrmGralloc W) (kms_fd : Z)
    (s : State W) :
  V2_0.importBuffer P G None s = ((BAD_BUFFER, None), s)
  /\ V4_0.importBuffer P D kms_fd None s = ((BAD_BUFFER, None), s)
  /\ existsb is_register
       (new_events s (snd (V2_0.importBuffer P G None s))) = false
  /\ existsb is_register
       (new_events s (snd (V4_0.importBuffer P D kms_fd None s))) = false.
Proof.
  repeat split; simpl; rewrite new_events_refl; reflexivity.
Qed.

(** ** lock with a malformed fence *)

(** C8.  With a non-null buffer and an acquire fence of more than one file
    descriptor, [lock] (both mappers) and [lockYCbCr] answer [BAD_VALUE];
    the world is untouched and the only thing added to the trace is the
    error log, so no fence was waited on and the driver was not called. *)
Theorem lock_rejects_multi_fd_fence {W : Type} (P : Platform W)
    (G : V2_0.GbmModule W) (D : V4_0.DrmGralloc W)
    (h f : native_handle_t) (cpuUsage : Z) (accessRegion : Rect)
    (s : State W) :
  1 < numFds f ->
  let s' :=
    mkState (world s)
      (trace s ++ [EvLogE "invalid fence handle with %d fds" (numFds f)]) in
  V2_0.lock P G (Some h) cpuUsage accessRegion (Some f) s
    = ((BAD_VALUE, nullptr), s')
  /\ V2_0.lockYCbCr P G (Some h) cpuUsage accessRegion (Some f) s
    = ((BAD_VALUE, YCbCrLayout_zero), s')
  /\ V4_0.lock P D (Some h) cpuUsage accessRegion (Some f) s
    = ((BAD_VALUE, nullptr), s').
Proof.
  intros H s'.
  unfold V2_0.lock, V2_0.lockYCbCr, V4_0.lock, bind.
  rewrite (getFenceFd_many_fds P f (-1) s H).
  repeat split.
Qed.

Lemma lock_rejects_multi_fd_fence_witness :
  V2_0.lock Sim.platform Sim.gbm (Some Sim.buf) 3 (mkRect 0 0 16 16)
    (Some Sim.fence2) Sim.registered
    = ((BAD_VALUE, nullptr),
       mkState 1 [EvLogE "invalid fence handle with %d fds" 2])
  /\ V2_0.lockYCbCr Sim.platform Sim.gbm (Some Sim.buf) 3 (mkRect 0 0 16 16)
    (Some Sim.fence2) Sim.registered
    = ((BAD_VALUE, YCbCrLayout_zero),
       mkState 1 [EvLogE "invalid fence handle with %d fds" 2])
  /\ V4_0.lock Sim.platform Sim.drm (Some Sim.buf) 3 (mkRect 0 0 16 16)
    (Some Sim.fence2) Sim.registered
    = ((BAD_VALUE, nullptr),
       mkState 1 [EvLogE "invalid fence handle with %d fds" 2]).
Proof.
  exact (lock_rejects_multi_fd_fence Sim.platform Sim.gbm Sim.drm
           Sim.buf Sim.fence2 3 (mkRect 0 0 16 16) Sim.registered eq_refl).
Defined.

(** ** unlock and flushLockedBuffer *)

(** C5.  When the buffer handle is non-null and the driver's unlock call
    reports success, [unlock] answers [NONE] with a release fence handle
    that is null, that is, one that carries no file descriptor. *)
Theorem unlock_no_op_fence {W : Type}
    (G : V2_0.GbmModule W) (D : V4_0.DrmGralloc W)
    (h : native_handle_t) (s : State W) :
  (fst (V2_0.gbm_mod_unlock G h (world s)) = 0 ->
   fst (V2_0.unlock G (Some h) s) = (NONE, None))
  /\ (fst (V4_0.drm_unlock D h (world s)) = 0 ->
      fst (V4_0.unlock D (Some h) s) = (NONE, None)).
Proof.
  split; intro H.
  - unfold V2_0.unlock. run.
    destruct (V2_0.gbm_mod_unlock G h (world s)) as [r w'].
    simpl in H; subst r. reflexivity.
  - unfold V4_0.unlock. run.
    destruct (V4_0.drm_unlock D h (world s)) as [r w'].
    simpl in H; subst r. reflexivity.
Qed.

Lemma unlock_no_op_fence_witness :
  fst (V2_0.unlock Sim.gbm (Some Sim.buf) Sim.registered) = (NONE, None)
  /\ fst (V4_0.unlock Sim.drm (Some Sim.buf) Sim.registered) = (NONE, None).
Proof.
  split.
  - exact (proj1 (unlock_no_op_fence Sim.gbm Sim.drm Sim.buf Sim.registered)
             eq_refl).
  - exact (proj2 (unlock_no_op_fence Sim.gbm Sim.drm Sim.buf Sim.registered)
             eq_refl).
Defined.

(** C9.  In the 4.0 mapper [flushLockedBuffer] and [unlock] are the same
    computation: from every state and for every buffer argument they
    return the same error and release fence and leave the same state; for
    a non-null buffer the first thing either does is call [drm_unlock] on
    it. *)
Theorem flushLockedBuffer_is_unlock {W : Type} (D : V4_0.DrmGralloc W)
    (buffer : handle_ptr) (s : State W) :
  V4_0.flushLockedBuffer D buffer s = V4_0.unlock D buffer s
  /\ forall h : native_handle_t,
       hd_error (new_events s (snd (V4_0.flushLockedBuffer D (Some h) s)))
       = Some (EvDrmUnlock h (fst (V4_0.drm_unlock D h (world s)))).
Proof.
  split; [reflexivity|].
  intro h. unfold V4_0.flushLockedBuffer. run.
  destruct (V4_0.drm_unlock D h (world s)) as [r w'].
  destruct (r =? 0); simpl.
  - rewrite new_events_app. reflexivity.
  - rewrite <- app_assoc, new_events_app. reflexivity.
Qed.

(** ** createDescriptor *)

(** C3, as amended.  In both mappers [createDescriptor] answers
    [BAD_VALUE] when width, height or layerCount is 0, and [UNSUPPORTED]
    when width and height are non-zero and layerCount is neither 0 nor 1;
    either way with an empty descriptor and without any external call. *)
Theorem createDescriptor_rejects {W : Type} (P : Platform W)
    (G : V2_0.GbmModule W) (T : V4_0.Gralloc4)
    (i2 : V2_0.BufferDescriptorInfo) (i4 : V4_0.BufferDescriptorInfo)
    (s : State W) :
  (V2_0.width i2 = 0 \/ V2_0.height i2 = 0 \/ V2_0.layerCount i2 = 0 ->
   V2_0.createDescriptor P G i2 s = ((BAD_VALUE, []), s))
  /\ (V2_0.width i2 <> 0 -> V2_0.height i2 <> 0 ->
      V2_0.layerCount i2 <> 0 -> V2_0.layerCount i2 <> 1 ->
      V2_0.createDescriptor P G i2 s = ((UNSUPPORTED, []), s))
  /\ (V4_0.width i4 = 0 \/ V4_0.height i4 = 0 \/ V4_0.layerCount i4 = 0 ->
      V4_0.createDescriptor P T i4 s = ((BAD_VALUE, []), s))
  /\ (V4_0.width i4 <> 0 -> V4_0.height i4 <> 0 ->
      V4_0.layerCount i4 <> 0 -> V4_0.layerCount i4 <> 1 ->
      V4_0.createDescriptor P T i4 s = ((UNSUPPORTED, []), s)).
Proof.
  repeat apply conj.
  - intro H. unfold V2_0.createDescriptor, V2_0.validate.
    assert (E : (V2_0.width i2 =? 0) || (V2_0.height i2 =? 0)
                || (V2_0.layerCount i2 =? 0) = true).
    { rewrite !orb_true_iff, !Z.eqb_eq. tauto. }
    rewrite E. reflexivity.
  - intros Hw Hh Hl0 Hl1. unfold V2_0.createDescriptor, V2_0.validate.
    apply Z.eqb_neq in Hw, Hh, Hl0, Hl1.
    rewrite Hw, Hh, Hl0, Hl1. reflexivity.
  - intro H. unfold V4_0.createDescriptor, V4_0.validate.
    assert (E : (V4_0.width i4 =? 0) || (V4_0.height i4 =? 0)
                || (V4_0.layerCount i4 =? 0) = true).
    { rewrite !orb_true_iff, !Z.eqb_eq. tauto. }
    rewrite E. reflexivity.
  - intros Hw Hh Hl0 Hl1. unfold V4_0.createDescriptor, V4_0.validate.
    apply Z.eqb_neq in Hw, Hh, Hl0, Hl1.
    rewrite Hw, Hh, Hl0, Hl1. reflexivity.
Qed.

Lemma createDescriptor_rejects_witness :
  V2_0.createDescriptor Sim.platform Sim.gbm (V2_0.mkInfo 640 0 1 1 3)
    Sim.fresh = ((BAD_VALUE, []), Sim.fresh)
  /\ V2_0.createDescriptor Sim.platform Sim.gbm (V2_0.mkInfo 640 480 2 1 3)
    Sim.fresh = ((UNSUPPORTED, []), Sim.fresh)
  /\ V4_0.createDescriptor Sim.platform Sim.gralloc4
       (V4_0.mkInfo "b" 640 480 0 1 3 0) Sim.fresh
     = ((BAD_VALUE, []), Sim.fresh)
  /\ V4_0.createDescriptor Sim.platform Sim.gralloc4
       (V4_0.mkInfo "b" 640 480 2 1 3 0) Sim.fresh
     = ((UNSUPPORTED, []), Sim.fresh).
Proof.
  repeat apply conj.
  - apply (proj1 (createDescriptor_rejects Sim.platform Sim.gbm Sim.gralloc4
             (V2_0.mkInfo 640 0 1 1 3) (V4_0.mkInfo "b" 640 480 0 1 3 0)
             Sim.fresh)).
    right; left; reflexivity.
  - apply (proj1 (proj2 (createDescriptor_rejects Sim.platform Sim.gbm
             Sim.gralloc4 (V2_0.mkInfo 640 480 2 1 3)
             (V4_0.mkInfo "b" 640 480 2 1 3 0) Sim.fresh)));
      simpl; discriminate.
  - apply (proj1 (proj2 (proj2 (createDescriptor_rejects Sim.platform Sim.gbm
             Sim.gralloc4 (V2_0.mkInfo 640 0 1 1 3)
             (V4_0.mkInfo "b" 640 480 0 1 3 0) Sim.fresh)))).
    right; right; reflexivity.
  - apply (proj2 (proj2 (proj2 (createDescriptor_rejects Sim.platform Sim.gbm
             Sim.gralloc4 (V2_0.mkInfo 640 480 2 1 3)
             (V4_0.mkInfo "b" 640 480 2 1 3 0) Sim.fresh))));
      simpl; discriminate.
Defined.

(** C3 as stated fails: with width 0 and layerCount 2 the layer count is
    non-zero and different from 1, but the answer is [BAD_VALUE]. *)
Lemma createDescriptor_zero_width_two_layers :
  ~ (V2_0.layerCount (V2_0.mkInfo 0 480 2 1 3) <> 0 ->
     V2_0.layerCount (V2_0.mkInfo 0 480 2 1 3) <> 1 ->
     fst (fst (V2_0.createDescriptor Sim.platform Sim.gbm
                 (V2_0.mkInfo 0 480 2 1 3) Sim.fresh)) = UNSUPPORTED).
Proof.
  intro H.
  assert (F : fst (fst (V2_0.createDescriptor Sim.platform Sim.gbm
                          (V2_0.mkInfo 0 480 2 1 3) Sim.fresh)) = UNSUPPORTED)
    by (apply H; simpl; discriminate).
  vm_compute in F. discriminate F.
Qed.

(** C6, as amended.  For a descriptor with non-zero width and height, one
    layer and a non-zero format, whatever its usage bits: the 2.0 mapper
    answers [NONE] with the descriptor the platform helper encodes; the 4.0
    mapper does so whenever the platform's encoder reports status 0, and
    answers [BAD_VALUE], with the vector as the encoder left it and an
    error log, whenever the encoder reports a non-zero status.  In all
    three cases usage bits outside the valid mask only add a warning to
    the log, and the world is untouched. *)
Theorem createDescriptor_accepts_any_usage {W : Type} (P : Platform W)
    (G : V2_0.GbmModule W) (T : V4_0.Gralloc4)
    (i2 : V2_0.BufferDescriptorInfo) (i4 : V4_0.BufferDescriptorInfo)
    (s : State W) :
  (V2_0.width i2 <> 0 -> V2_0.height i2 <> 0 ->
   V2_0.layerCount i2 = 1 -> V2_0.format i2 <> 0 ->
   V2_0.createDescriptor P G i2 s =
     ((NONE, V2_0.grallocEncodeBufferDescriptor G i2),
      mkState (world s)
        (trace s ++ usage_warning (usage_bits P) (V2_0.usage i2))))
  /\ (V4_0.width i4 <> 0 -> V4_0.height i4 <> 0 ->
      V4_0.layerCount i4 = 1 -> V4_0.format i4 <> 0 ->
      fst (V4_0.encodeBufferDescriptorInfo T i4 []) = 0 ->
      V4_0.createDescriptor P T i4 s =
        ((NONE, snd (V4_0.encodeBufferDescriptorInfo T i4 [])),
         mkState (world s)
           (trace s ++ usage_warning (usage_bits P) (V4_0.usage i4))))
  /\ (V4_0.width i4 <> 0 -> V4_0.height i4 <> 0 ->
      V4_0.layerCount i4 = 1 -> V4_0.format i4 <> 0 ->
      fst (V4_0.encodeBufferDescriptorInfo T i4 []) <> 0 ->
      V4_0.createDescriptor P T i4 s =
        ((BAD_VALUE, snd (V4_0.encodeBufferDescriptorInfo T i4 [])),
         mkState (world s)
           (trace s ++ usage_warning (usage_bits P) (V4_0.usage i4)
            ++ [EvLogE "Failed to createDescriptor. Failed to encode: %d."
                  (fst (V4_0.encodeBufferDescriptorInfo T i4 []))]))).
Proof.
  repeat apply conj.
  - intros Hw Hh Hl Hf. unfold V2_0.createDescriptor, V2_0.validate.
    apply Z.eqb_neq in Hw, Hh, Hf. rewrite Hw, Hh, Hl, Hf. simpl.
    unfold usage_warning. run.
    destruct (Z.land _ _ =? 0); simpl.
    + rewrite app_nil_r, state_eta. reflexivity.
    + reflexivity.
  - intros Hw Hh Hl Hf He. unfold V4_0.createDescriptor, V4_0.validate.
    apply Z.eqb_neq in Hw, Hh, Hf. rewrite Hw, Hh, Hl, Hf. simpl.
    unfold usage_warning. run.
    destruct (V4_0.encodeBufferDescriptorInfo T i4 []) as [r d].
    simpl in He; subst r.
    destruct (Z.land _ _ =? 0); simpl.
    + rewrite app_nil_r, state_eta. reflexivity.
    + reflexivity.
  - intros Hw Hh Hl Hf He. unfold V4_0.createDescriptor, V4_0.validate.
    apply Z.eqb_neq in Hw, Hh, Hf. rewrite Hw, Hh, Hl, Hf. simpl.
    unfold usage_warning. run.
    destruct (V4_0.encodeBufferDescriptorInfo T i4 []) as [r d].
    simpl in He. apply Z.eqb_neq in He. simpl. rewrite He.
    destruct (Z.land _ _ =? 0); simpl.
    + reflexivity.
    + rewrite <- app_assoc. reflexivity.
Qed.

Lemma createDescriptor_accepts_any_usage_witness :
  V2_0.createDescriptor Sim.platform Sim.gbm
    (V2_0.mkInfo 640 480 1 1 (2 ^ 40 + 3)) Sim.fresh
  = ((NONE, [640; 480; 1; 1; 3; 256]),
     mkState 0
       [EvLogW "buffer descriptor with invalid usage bits 0x%" (2 ^ 40)])
  /\ V4_0.createDescriptor Sim.platform Sim.gralloc4
       (V4_0.mkInfo "b" 640 480 1 1 (2 ^ 40 + 3) 0) Sim.fresh
     = ((NONE, [128; 2; 0; 0; 224; 1; 0; 0; 1; 0; 0; 0; 1; 0; 0; 0]),
        mkState 0
          [EvLogW "buffer descriptor with invalid usage bits 0x%" (2 ^ 40)])
  /\ V4_0.createDescriptor Sim.platform Sim.gralloc4_encode_fails
       (V4_0.mkInfo "b" 640 480 1 1 (2 ^ 40 + 3) 0) Sim.fresh
     = ((BAD_VALUE, []),
        mkState 0
          [EvLogW "buffer descriptor with invalid usage bits 0x%" (2 ^ 40);
           EvLogE "Failed to createDescriptor. Failed to encode: %d."
             (-22)]).
Proof.
  repeat apply conj.
  - apply (proj1 (createDescriptor_accepts_any_usage Sim.platform Sim.gbm
             Sim.gralloc4 (V2_0.mkInfo 640 480 1 1 (2 ^ 40 + 3))
             (V4_0.mkInfo "b" 640 480 1 1 (2 ^ 40 + 3) 0) Sim.fresh));
      simpl; (reflexivity || discriminate).
  - apply (proj1 (proj2 (createDescriptor_accepts_any_usage Sim.platform
             Sim.gbm Sim.gralloc4 (V2_0.mkInfo 640 480 1 1 (2 ^ 40 + 3))
             (V4_0.mkInfo "b" 640 480 1 1 (2 ^ 40 + 3) 0) Sim.fresh)));
      simpl; (reflexivity || discriminate).
  - apply (proj2 (proj2 (createDescriptor_accepts_any_usage Sim.platform
             Sim.gbm Sim.gralloc4_encode_fails
             (V2_0.mkInfo 640 480 1 1 (2 ^ 40 + 3))
             (V4_0.mkInfo "b" 640 480 1 1 (2 ^ 40 + 3) 0) Sim.fresh)));
      simpl; (reflexivity || discriminate).
Defined.

(** C6 as stated fails on the 4.0 mapper: a descriptor that passes every
    check is still answered [BAD_VALUE] when the platform's encoder
    reports an error. *)
Lemma createDescriptor_v4_encoder_failure :
  ~ (V4_0.width (V4_0.mkInfo "b" 640 480 1 1 3 0) <> 0 ->
     V4_0.height (V4_0.mkInfo "b" 640 480 1 1 3 0) <> 0 ->
     V4_0.layerCount (V4_0.mkInfo "b" 640 480 1 1 3 0) = 1 ->
     V4_0.format (V4_0.mkInfo "b" 640 480 1 1 3 0) <> 0 ->
     fst (fst (V4_0.createDescriptor Sim.platform Sim.gralloc4_encode_fails
                 (V4_0.mkInfo "b" 640 480 1 1 3 0) Sim.fresh)) = NONE).
Proof.
  intro H.
  assert (F : fst (fst (V4_0.createDescriptor Sim.platform
                          Sim.gralloc4_encode_fails
                          (V4_0.mkInfo "b" 640 480 1 1 3 0) Sim.fresh)) = NONE)
    by (apply H; simpl; (reflexivity || discriminate)).
  vm_compute in F. discriminate F.
Qed.

(** ** lock *)

(** C2, as amended.  Take a non-null buffer and an acquire fence that
    [getFenceFd] accepts, yielding descriptor [fd] in state [s1]; up to
    there neither the driver nor a fence wait has been called.  Each lock
    method then waits on [fd] and next calls the driver's lock function
    once; it answers [UNSUPPORTED] (null pointer, zero layout) when the
    driver's status is non-zero and [NONE] with what the driver produced
    otherwise.  The 2.0 methods pass the driver the caller's access
    rectangle and the low 32 bits of the caller's usage mask; the 4.0
    method passes only the buffer handle. *)
Theorem lock_waits_then_maps {W : Type} (P : Platform W)
    (G : V2_0.GbmModule W) (D : V4_0.DrmGralloc W)
    (h : native_handle_t) (cpuUsage : Z) (accessRegion : Rect)
    (acquireFence : hidl_handle) (s : State W) (fd : Z) (s1 : State W) :
  getFenceFd P acquireFence (-1) s = ((NONE, fd), s1) ->
  let l := rect_left accessRegion in
  let t := rect_top accessRegion in
  let w := rect_width accessRegion in
  let ht := rect_height accessRegion in
  let waited := fence_waitForever P fd (world s1) in
  forallb (fun e => negb (is_driver_call e || is_fence_wait e))
          (new_events s s1) = true
  /\ (let res :=
        V2_0.gbm_mod_lock G h (to_int32 cpuUsage) l t w ht nullptr waited in
      let r := fst (fst res) in
      let p := snd (fst res) in
      V2_0.lock P G (Some h) cpuUsage accessRegion acquireFence s =
        (if r =? 0 then (NONE, p) else (UNSUPPORTED, nullptr),
         mkState (snd res)
           (trace s1
            ++ [EvFenceWait fd "Mapper::lock";
                EvGbmLock h (to_int32 cpuUsage) l t w ht r p]
            ++ lock_failure_log "gbm_lock() returned %d" r)))
  /\ (let res :=
        V2_0.gbm_mod_lock_ycbcr G h (to_int32 cpuUsage) l t w ht
          android_ycbcr_zero waited in
      let r := fst (fst res) in
      let o := snd (fst res) in
      V2_0.lockYCbCr P G (Some h) cpuUsage accessRegion acquireFence s =
        (if r =? 0
         then (NONE,
               mkYCbCrLayout (ycbcr_y o) (ycbcr_cb o) (ycbcr_cr o)
                 (to_uint32 (ystride o)) (to_uint32 (cstride o))
                 (to_uint32 (chroma_step o)))
         else (UNSUPPORTED, YCbCrLayout_zero),
         mkState (snd res)
           (trace s1
            ++ [EvFenceWait fd "Mapper::lockYCbCr";
                EvGbmLockYCbCr h (to_int32 cpuUsage) l t w ht r o]
            ++ lock_failure_log "gbm_mod_lock_ycbcr() returned %d" r)))
  /\ (let res := V4_0.drm_lock D h nullptr waited in
      let r := fst (fst res) in
      let p := snd (fst res) in
      V4_0.lock P D (Some h) cpuUsage accessRegion acquireFence s =
        (if r =? 0 then (NONE, p) else (UNSUPPORTED, nullptr),
         mkState (snd res)
           (trace s1
            ++ [EvFenceWait fd "Mapper::lock"; EvDrmLock h r p]
            ++ lock_failure_log "drm_lock() returned %d" r))).
Proof.
  intros Hf l t w ht waited.
  repeat apply conj.
  - destruct (getFenceFd_events P acquireFence (-1) s) as [evs [Ht Hall]].
    rewrite Hf in Ht; simpl in Ht.
    unfold new_events. rewrite Ht, skipn_app, skipn_all, Nat.sub_diag.
    exact Hall.
  - unfold V2_0.lock, bind at 1. rewrite Hf, lock_usage_truncates. simpl.
    run. simpl. fold l t w ht waited.
    destruct (V2_0.gbm_mod_lock G h (to_int32 cpuUsage) l t w ht nullptr waited)
      as [[r p] w2].
    simpl. unfold lock_failure_log.
    destruct (r =? 0); simpl; rewrite <- ?app_assoc; reflexivity.
  - unfold V2_0.lockYCbCr, bind at 1. rewrite Hf, lock_usage_truncates. simpl.
    run. simpl. fold l t w ht waited.
    destruct (V2_0.gbm_mod_lock_ycbcr G h (to_int32 cpuUsage) l t w ht
                android_ycbcr_zero waited) as [[r o] w2].
    simpl. unfold lock_failure_log.
    destruct (r =? 0); simpl; rewrite <- ?app_assoc; reflexivity.
  - unfold V4_0.lock, bind at 1. rewrite Hf. simpl.
    run. simpl. fold waited.
    destruct (V4_0.drm_lock D h nullptr waited) as [[r p] w2].
    simpl. unfold lock_failure_log.
    destruct (r =? 0); simpl; rewrite <- ?app_assoc; reflexivity.
Qed.

Lemma lock_waits_then_maps_witness :
  getFenceFd Sim.platform (Some Sim.fence9) (-1) Sim.registered
    = ((NONE, 109), mkState 1 [EvDup 9 109])
  /\ V2_0.lock Sim.platform Sim.gbm (Some Sim.buf) 3 (mkRect 0 0 16 16)
       (Some Sim.fence9) Sim.registered
     = ((NONE, 4096),
        mkState 1
          [EvDup 9 109; EvFenceWait 109 "Mapper::lock";
           EvGbmLock Sim.buf 3 0 0 16 16 0 4096])
  /\ V4_0.lock Sim.platform Sim.drm (Some Sim.buf) 3 (mkRect 0 0 16 16)
       (Some Sim.fence9) Sim.registered
     = ((NONE, 4096),
        mkState 1
          [EvDup 9 109; EvFenceWait 109 "Mapper::lock";
           EvDrmLock Sim.buf 0 4096]).
Proof.
  split; [reflexivity|].
  pose (H := lock_waits_then_maps Sim.platform Sim.gbm Sim.drm Sim.buf 3
               (mkRect 0 0 16 16) (Some Sim.fence9) Sim.registered 109
               (mkState 1 [EvDup 9 109]) eq_refl).
  split.
  - exact (proj1 (proj2 H)).
  - exact (proj2 (proj2 (proj2 H))).
Defined.

(** C2 as stated fails.  On the 4.0 mapper two calls that differ in usage
    mask and access rectangle are the same computation, and the one driver
    call in the trace carries neither; on the 2.0 mapper a usage mask with
    bit 32 set reaches the driver without it. *)
Lemma lock_does_not_forward_region_and_usage :
  V4_0.lock Sim.platform Sim.drm (Some Sim.buf) 3 (mkRect 0 0 16 16) None
    Sim.registered
  = V4_0.lock Sim.platform Sim.drm (Some Sim.buf) 48 (mkRect 4 4 8 8) None
      Sim.registered
  /\ trace (snd (V4_0.lock Sim.platform Sim.drm (Some Sim.buf) 3
                   (mkRect 0 0 16 16) None Sim.registered))
     = [EvFenceWait (-1) "Mapper::lock"; EvDrmLock Sim.buf 0 4096]
  /\ trace (snd (V2_0.lock Sim.platform Sim.gbm (Some Sim.buf) (2 ^ 32 + 3)
                   (mkRect 0 0 16 16) None Sim.registered))
     = [EvFenceWait (-1) "Mapper::lock";
        EvGbmLock Sim.buf 3 0 0 16 16 0 4096]
  /\ 2 ^ 32 + 3 <> 3.
Proof. repeat split. discriminate. Qed.

(** ** Metadata (4.0) *)

(** C4, as amended.  For a non-null buffer, [get] answers [NONE] with what
    [encodeDataspace] writes for [Dataspace::UNKNOWN] when the metadata
    type is the standard type [DATASPACE], and [UNSUPPORTED] with empty
    metadata for every other metadata type; the state is untouched. *)
Theorem get_dataspace_only {W : Type} (T : V4_0.Gralloc4)
    (h : native_handle_t) (mt : MetadataType) (s : State W) :
  (V4_0.isStandardMetadataType T mt = true ->
   V4_0.getStandardMetadataTypeValue T mt = V4_0.StandardMetadataType_DATASPACE T ->
   V4_0.get T (Some h) mt s =
     ((NONE, snd (V4_0.encodeDataspace T (V4_0.Dataspace_UNKNOWN T) [])), s))
  /\ (V4_0.isStandardMetadataType T mt = false
      \/ V4_0.getStandardMetadataTypeValue T mt
         <> V4_0.StandardMetadataType_DATASPACE T ->
      V4_0.get T (Some h) mt s = ((UNSUPPORTED, []), s)).
Proof.
  unfold V4_0.get. split.
  - intros Hs Hv. rewrite Hs, Hv, Z.eqb_refl. reflexivity.
  - intros [Hs | Hv].
    + rewrite Hs. reflexivity.
    + apply Z.eqb_neq in Hv. rewrite Hv, andb_false_r. reflexivity.
Qed.

Lemma get_dataspace_only_witness :
  V4_0.get Sim.gralloc4 (Some Sim.buf) Sim.DATASPACE Sim.fresh
    = ((NONE, [0; 0; 0; 0]), Sim.fresh)
  /\ V4_0.get Sim.gralloc4 (Some Sim.buf) Sim.SMPTE2086 Sim.fresh
    = ((UNSUPPORTED, []), Sim.fresh).
Proof.
  split.
  - exact (proj1 (get_dataspace_only Sim.gralloc4 Sim.buf Sim.DATASPACE
                    Sim.fresh) eq_refl eq_refl).
  - apply (proj2 (get_dataspace_only Sim.gralloc4 Sim.buf Sim.SMPTE2086
                    Sim.fresh)).
    right. vm_compute. discriminate.
Defined.

(** C4 as stated fails for a null buffer: [get] of [DATASPACE] then answers
    [BAD_BUFFER] with empty metadata. *)
Lemma get_null_buffer_dataspace :
  V4_0.isStandardMetadataType Sim.gralloc4 Sim.DATASPACE = true
  /\ V4_0.getStandardMetadataTypeValue Sim.gralloc4 Sim.DATASPACE
     = V4_0.StandardMetadataType_DATASPACE Sim.gralloc4
  /\ V4_0.get Sim.gralloc4 None Sim.DATASPACE Sim.fresh
     = ((BAD_BUFFER, []), Sim.fresh)
  /\ fst (fst (V4_0.get Sim.gralloc4 None Sim.DATASPACE Sim.fresh)) <> NONE.
Proof. repeat split. discriminate. Qed.

(** C10.  [listSupportedMetadataTypes] answers [NONE] with an empty list
    and touches nothing, although [get] on a non-null buffer answers
    [NONE] for the standard metadata type [DATASPACE]. *)
Theorem listSupportedMetadataTypes_empty {W : Type} (T : V4_0.Gralloc4)
    (h : native_handle_t) (mt : MetadataType) (s : State W) :
  V4_0.listSupportedMetadataTypes s = ((NONE, []), s)
  /\ (V4_0.isStandardMetadataType T mt = true ->
      V4_0.getStandardMetadataTypeValue T mt
        = V4_0.StandardMetadataType_DATASPACE T ->
      fst (fst (V4_0.get T (Some h) mt s)) = NONE).
Proof.
  split; [reflexivity|].
  intros Hs Hv. unfold V4_0.get.
  rewrite Hs, Hv, Z.eqb_refl. reflexivity.
Qed.

Lemma listSupportedMetadataTypes_empty_witness :
  V4_0.listSupportedMetadataTypes Sim.fresh = ((NONE, []), Sim.fresh)
  /\ fst (fst (V4_0.get Sim.gralloc4 (Some Sim.buf) Sim.DATASPACE Sim.fresh))
     = NONE.
Proof.
  split.
  - exact (proj1 (listSupportedMetadataTypes_empty Sim.gralloc4 Sim.buf
                    Sim.DATASPACE Sim.fresh)).
  - exact (proj2 (listSupportedMetadataTypes_empty Sim.gralloc4 Sim.buf
                    Sim.DATASPACE Sim.fresh) eq_refl eq_refl).
Defined.

(** * Further properties *)

(** ** importBuffer: ownership of the clone *)

(** [importBuffer] answers [NONE] exactly when it hands out a handle. *)
Theorem importBuffer_none_iff_handle {W : Type} (P : Platform W)
    (G : V2_0.GbmModule W) (D : V4_0.DrmGralloc W) (kms_fd : Z)
    (rawHandle : hidl_handle) (s : State W) :
  Error_eqb (fst (fst (V2_0.importBuffer P G rawHandle s))) NONE
    = match snd (fst (V2_0.importBuffer P G rawHandle s)) with
      | Some _ => true
      | None => false
      end
  /\ Error_eqb (fst (fst (V4_0.importBuffer P D kms_fd rawHandle s))) NONE
    = match snd (fst (V4_0.importBuffer P D kms_fd rawHandle s)) with
      | Some _ => true
      | None => false
      end.
Proof.
  split.
  - unfold V2_0.importBuffer. destruct rawHandle as [raw|]; [|reflexivity].
    run. destruct (native_handle_clone P raw (world s)) as [c w1]. simpl.
    destruct (V2_0.gbm_mod_register G c w1) as [r w2].
    destruct (r =? 0), c; reflexivity.
  - unfold V4_0.importBuffer. destruct rawHandle as [raw|]; [|reflexivity].
    run. destruct (native_handle_clone P raw (world s)) as [c w1]. simpl.
    destruct (V4_0.drm_register D kms_fd c w1) as [r w2].
    destruct (r =? 0), c; reflexivity.
Qed.

(** When the driver refuses the registration, [importBuffer] answers
    [NO_RESOURCES] with a null handle, and after the refusal it closes and
    deletes the clone it made, once each. *)
Theorem importBuffer_failure_releases_clone {W : Type} (P : Platform W)
    (G : V2_0.GbmModule W) (D : V4_0.DrmGralloc W) (kms_fd : Z)
    (raw : native_handle_t) (s : State W) :
  let cl := native_handle_clone P raw (world s) in
  let c := fst cl in
  (let rg := V2_0.gbm_mod_register G c (snd cl) in
   fst rg <> 0 ->
   V2_0.importBuffer P G (Some raw) s =
     ((NO_RESOURCES, None),
      mkState (native_handle_delete P c (native_handle_close P c (snd rg)))
        (trace s
         ++ [EvHandleClone raw c; EvGbmRegister c (fst rg);
             EvLogE "gbm register failed: %d" (fst rg);
             EvHandleClose c; EvHandleDelete c])))
  /\ (let rg := V4_0.drm_register D kms_fd c (snd cl) in
      fst rg <> 0 ->
      V4_0.importBuffer P D kms_fd (Some raw) s =
        ((NO_RESOURCES, None),
         mkState (native_handle_delete P c (native_handle_close P c (snd rg)))
           (trace s
            ++ [EvHandleClone raw c; EvDrmRegister kms_fd c (fst rg);
                EvLogE "register failed: %d" (fst rg);
                EvHandleClose c; EvHandleDelete c]))).
Proof.
  intros cl c. subst c cl. split; intros rg Hr; subst rg.
  - unfold V2_0.importBuffer. run.
    destruct (native_handle_clone P raw (world s)) as [c w1]. simpl in *.
    destruct (V2_0.gbm_mod_register G c w1) as [r w2]. simpl in *.
    apply Z.eqb_neq in Hr. rewrite Hr. simpl.
    rewrite <- !app_assoc. reflexivity.
  - unfold V4_0.importBuffer. run.
    destruct (native_handle_clone P raw (world s)) as [c w1]. simpl in *.
    destruct (V4_0.drm_register D kms_fd c w1) as [r w2]. simpl in *.
    apply Z.eqb_neq in Hr. rewrite Hr. simpl.
    rewrite <- !app_assoc. reflexivity.
Qed.

Lemma importBuffer_failure_releases_clone_witness :
  V2_0.importBuffer Sim.platform SimFaults.gbm_full (Some Sim.buf) Sim.fresh
  = ((NO_RESOURCES, None),
     mkState 0
       [EvHandleClone Sim.buf (Some Sim.buf);
        EvGbmRegister (Some Sim.buf) (-12);
        EvLogE "gbm register failed: %d" (-12);
        EvHandleClose (Some Sim.buf); EvHandleDelete (Some Sim.buf)])
  /\ V4_0.importBuffer Sim.platform SimFaults.drm_full Sim.kms_fd
       (Some Sim.buf) Sim.fresh
  = ((NO_RESOURCES, None),
     mkState 0
       [EvHandleClone Sim.buf (Some Sim.buf);
        EvDrmRegister Sim.kms_fd (Some Sim.buf) (-12);
        EvLogE "register failed: %d" (-12);
        EvHandleClose (Some Sim.buf); EvHandleDelete (Some Sim.buf)]).
Proof.
  split.
  - apply (proj1 (importBuffer_failure_releases_clone Sim.platform
             SimFaults.gbm_full SimFaults.drm_full Sim.kms_fd Sim.buf
             Sim.fresh)).
    vm_compute. discriminate.
  - apply (proj2 (importBuffer_failure_releases_clone Sim.platform
             SimFaults.gbm_full SimFaults.drm_full Sim.kms_fd Sim.buf
             Sim.fresh)).
    vm_compute. discriminate.
Defined.

(** When the clone succeeds and the driver accepts it, [importBuffer]
    answers [NONE] with the clone; the only calls are the clone and the
    registration, so the clone is neither closed nor deleted. *)
Theorem importBuffer_success_keeps_clone {W : Type} (P : Platform W)
    (G : V2_0.GbmModule W) (D : V4_0.DrmGralloc W) (kms_fd : Z)
    (raw c : native_handle_t) (s : State W) :
  fst (native_handle_clone P raw (world s)) = Some c ->
  let w1 := snd (native_handle_clone P raw (world s)) in
  (fst (V2_0.gbm_mod_register G (Some c) w1) = 0 ->
   V2_0.importBuffer P G (Some raw) s =
     ((NONE, Some c),
      mkState (snd (V2_0.gbm_mod_register G (Some c) w1))
        (trace s ++ [EvHandleClone raw (Some c); EvGbmRegister (Some c) 0])))
  /\ (fst (V4_0.drm_register D kms_fd (Some c) w1) = 0 ->
      V4_0.importBuffer P D kms_fd (Some raw) s =
        ((NONE, Some c),
         mkState (snd (V4_0.drm_register D kms_fd (Some c) w1))
           (trace s
            ++ [EvHandleClone raw (Some c);
                EvDrmRegister kms_fd (Some c) 0]))).
Proof.
  intros Hc w1. subst w1. split; intro Hr.
  - unfold V2_0.importBuffer. run.
    destruct (native_handle_clone P raw (world s)) as [c' w1].
    simpl in *. subst c'.
    destruct (V2_0.gbm_mod_register G (Some c) w1) as [r w2].
    simpl in *. subst r. simpl. rewrite <- app_assoc. reflexivity.
  - unfold V4_0.importBuffer. run.
    destruct (native_handle_clone P raw (world s)) as [c' w1].
    simpl in *. subst c'.
    destruct (V4_0.drm_register D kms_fd (Some c) w1) as [r w2].
    simpl in *. subst r. simpl. rewrite <- app_assoc. reflexivity.
Qed.

Lemma importBuffer_success_keeps_clone_witness :
  V2_0.importBuffer Sim.platform Sim.gbm (Some Sim.buf) Sim.fresh
  = ((NONE, Some Sim.buf),
     mkState 1
       [EvHandleClone Sim.buf (Some Sim.buf);
        EvGbmRegister (Some Sim.buf) 0])
  /\ V4_0.importBuffer Sim.platform Sim.drm Sim.kms_fd (Some Sim.buf)
       Sim.fresh
  = ((NONE, Some Sim.buf),
     mkState 1
       [EvHandleClone Sim.buf (Some Sim.buf);
        EvDrmRegister Sim.kms_fd (Some Sim.buf) 0]).
Proof.
  split.
  - exact (proj1 (importBuffer_success_keeps_clone Sim.platform Sim.gbm
                    Sim.drm Sim.kms_fd Sim.buf Sim.buf Sim.fresh eq_refl)
             eq_refl).
  - exact (proj2 (importBuffer_success_keeps_clone Sim.platform Sim.gbm
                    Sim.drm Sim.kms_fd Sim.buf Sim.buf Sim.fresh eq_refl)
             eq_refl).
Defined.

(** When [native_handle_clone] fails, [importBuffer] still asks the driver
    to register, passing it a null handle, and answers [NO_RESOURCES] with
    a null handle whatever the driver says. *)
Theorem importBuffer_clone_failure {W : Type} (P : Platform W)
    (G : V2_0.GbmModule W) (D : V4_0.DrmGralloc W) (kms_fd : Z)
    (raw : native_handle_t) (s : State W) :
  fst (native_handle_clone P raw (world s)) = None ->
  let w1 := snd (native_handle_clone P raw (world s)) in
  (fst (V2_0.importBuffer P G (Some raw) s) = (NO_RESOURCES, None)
   /\ firstn 2 (new_events s (snd (V2_0.importBuffer P G (Some raw) s)))
      = [EvHandleClone raw None;
         EvGbmRegister None (fst (V2_0.gbm_mod_register G None w1))])
  /\ (fst (V4_0.importBuffer P D kms_fd (Some raw) s) = (NO_RESOURCES, None)
      /\ firstn 2
           (new_events s (snd (V4_0.importBuffer P D kms_fd (Some raw) s)))
         = [EvHandleClone raw None;
            EvDrmRegister kms_fd None
              (fst (V4_0.drm_register D kms_fd None w1))]).
Proof.
  intros Hc w1. subst w1. split.
  - unfold V2_0.importBuffer. run.
    destruct (native_handle_clone P raw (world s)) as [c' w1].
    simpl in *. subst c'.
    destruct (V2_0.gbm_mod_register G None w1) as [r w2].
    destruct (r =? 0); simpl; split; try reflexivity;
      rewrite <- ?app_assoc, new_events_app; reflexivity.
  - unfold V4_0.importBuffer. run.
    destruct (native_handle_clone P raw (world s)) as [c' w1].
    simpl in *. subst c'.
    destruct (V4_0.drm_register D kms_fd None w1) as [r w2].
    destruct (r =? 0); simpl; split; try reflexivity;
      rewrite <- ?app_assoc, new_events_app; reflexivity.
Qed.

Lemma importBuffer_clone_failure_witness :
  fst (V2_0.importBuffer SimFaults.platform_no_clone Sim.gbm (Some Sim.buf)
         Sim.fresh) = (NO_RESOURCES, None)
  /\ fst (V4_0.importBuffer SimFaults.platform_no_clone Sim.drm Sim.kms_fd
            (Some Sim.buf) Sim.fresh) = (NO_RESOURCES, None).
Proof.
  pose (H := importBuffer_clone_failure SimFaults.platform_no_clone Sim.gbm
               Sim.drm Sim.kms_fd Sim.buf Sim.fresh eq_refl).
  split.
  - exact (proj1 (proj1 H)).
  - exact (proj1 (proj2 H)).
Defined.

(** ** freeBuffer: when the handle is released *)

(** For a non-null handle the 2.0 [freeBuffer] closes and deletes it, once
    each, exactly when [gbm_mod_unregister] reported success, and leaves it
    alone otherwise; the 4.0 [freeBuffer] closes and deletes it whatever
    [drm_free] reported.  Either makes exactly one driver call. *)
Theorem freeBuffer_release {W : Type} (P : Platform W)
    (G : V2_0.GbmModule W) (D : V4_0.DrmGralloc W) (kms_fd : Z)
    (h : native_handle_t) (s : State W) :
  let e2 := new_events s (snd (V2_0.freeBuffer P G (Some h) s)) in
  let e4 := new_events s (snd (V4_0.freeBuffer P D kms_fd (Some h) s)) in
  let r2 := fst (V2_0.gbm_mod_unregister G h (world s)) in
  let r4 := fst (V4_0.drm_free D kms_fd h (world s)) in
  filter is_release e2
    = (if r2 =? 0 then [EvHandleClose (Some h); EvHandleDelete (Some h)]
       else [])
  /\ filter is_driver_call e2 = [EvGbmUnregister h r2]
  /\ filter is_release e4 = [EvHandleClose (Some h); EvHandleDelete (Some h)]
  /\ filter is_driver_call e4 = [EvDrmFree kms_fd h r4].
Proof.
  intros e2 e4 r2 r4. subst e2 e4 r2 r4.
  unfold V2_0.freeBuffer, V4_0.freeBuffer. run.
  destruct (V2_0.gbm_mod_unregister G h (world s)) as [r w2].
  destruct (V4_0.drm_free D kms_fd h (world s)) as [r' w4].
  simpl. rewrite <- !app_assoc, new_events_app.
  destruct (r =? 0); simpl; rewrite <- ?app_assoc, new_events_app;
    repeat split.
Qed.

(** ** The fence helpers *)

(** [getFenceFd] fails only with [BAD_VALUE] or [NO_RESOURCES], and when it
    fails the caller's descriptor slot keeps what it held. *)
Theorem getFenceFd_failure_keeps_slot {W : Type} (P : Platform W)
    (f : hidl_handle) (o : Z) (s : State W) :
  fst (fst (getFenceFd P f o s)) <> NONE ->
  snd (fst (getFenceFd P f o s)) = o
  /\ (fst (fst (getFenceFd P f o s)) = BAD_VALUE
      \/ fst (fst (getFenceFd P f o s)) = NO_RESOURCES).
Proof.
  unfold getFenceFd.
  destruct (match f with Some h => 1 <? numFds h | None => false end).
  - run. simpl. auto.
  - destruct (0 <=? _).
    + run. destruct (sys_dup P _ (world s)) as [fd' w'].
      destruct (fd' <? 0); simpl; intro H; [auto | congruence].
    + run. simpl. congruence.
Qed.

Lemma getFenceFd_failure_keeps_slot_witness :
  snd (fst (getFenceFd SimFaults.platform_no_dup (Some Sim.fence9) 77
              Sim.fresh)) = 77
  /\ (fst (fst (getFenceFd SimFaults.platform_no_dup (Some Sim.fence9) 77
                  Sim.fresh)) = BAD_VALUE
      \/ fst (fst (getFenceFd SimFaults.platform_no_dup (Some Sim.fence9) 77
                     Sim.fresh)) = NO_RESOURCES).
Proof.
  apply (getFenceFd_failure_keeps_slot SimFaults.platform_no_dup
           (Some Sim.fence9) 77 Sim.fresh).
  vm_compute. discriminate.
Defined.

(** A descriptor that [getFenceFd] hands out is never the caller's own: a
    non-negative result is what [dup] returned for the handle's single
    descriptor.  A negative result means that nothing was called. *)
Theorem getFenceFd_duplicates {W : Type} (P : Platform W)
    (f : hidl_handle) (o fd : Z) (s s1 : State W) :
  getFenceFd P f o s = ((NONE, fd), s1) ->
  (0 <= fd ->
   match f with
   | Some h =>
       numFds h = 1 /\ 0 <= data0 h
       /\ fd = fst (sys_dup P (data0 h) (world s))
       /\ trace s1 = trace s ++ [EvDup (data0 h) fd]
   | None => False
   end)
  /\ (fd < 0 -> s1 = s).
Proof.
  unfold getFenceFd.
  destruct f as [h|].
  - destruct (1 <? numFds h); [run; simpl; congruence|].
    destruct (numFds h =? 1) eqn:En.
    + destruct (0 <=? data0 h) eqn:Ed.
      * run. destruct (sys_dup P (data0 h) (world s)) as [fd' w'] eqn:Edup.
        destruct (fd' <? 0) eqn:Ef; [congruence|].
        intro H. injection H as <- <-. split.
        -- intros _. apply Z.eqb_eq in En. apply Z.leb_le in Ed.
           simpl. auto.
        -- intro Hneg. apply Z.ltb_ge in Ef. lia.
      * run. intro H. injection H as <- <-. split.
        -- intro Hpos. apply Z.leb_gt in Ed. lia.
        -- reflexivity.
    + simpl. run. intro H. injection H as <- <-. split; [lia | reflexivity].
  - simpl. run. intro H. injection H as <- <-. split; [lia | reflexivity].
Qed.

Lemma getFenceFd_duplicates_witness :
  (numFds Sim.fence9 = 1 /\ 0 <= data0 Sim.fence9
   /\ 109 = fst (sys_dup Sim.platform (data0 Sim.fence9) (world Sim.fresh))
   /\ trace (snd (getFenceFd Sim.platform (Some Sim.fence9) (-1) Sim.fresh))
      = trace Sim.fresh ++ [EvDup (data0 Sim.fence9) 109])
  /\ snd (getFenceFd Sim.platform (Some SimFaults.fence_neg) (-1) Sim.fresh)
     = Sim.fresh.
Proof.
  split.
  - apply (proj1 (getFenceFd_duplicates Sim.platform (Some Sim.fence9) (-1)
                    109 Sim.fresh
                    (snd (getFenceFd Sim.platform (Some Sim.fence9) (-1)
                            Sim.fresh)) eq_refl)).
    lia.
  - apply (proj2 (getFenceFd_duplicates Sim.platform
                    (Some SimFaults.fence_neg) (-1) (-5) Sim.fresh
                    (snd (getFenceFd Sim.platform (Some SimFaults.fence_neg)
                            (-1) Sim.fresh)) eq_refl)).
    lia.
Defined.

(** A handle made by [getFenceHandle] is one [getFenceFd] accepts: for a
    negative descriptor it is null and yields -1 without any call; for a
    descriptor [fd >= 0] it makes [getFenceFd] duplicate exactly [fd], and
    it is never refused as malformed. *)
Theorem getFenceHandle_accepted {W : Type} (P : Platform W)
    (fd o : Z) (s : State W) :
  (fd < 0 -> getFenceFd P (getFenceHandle fd) o s = ((NONE, -1), s))
  /\ (0 <= fd ->
      new_events s (snd (getFenceFd P (getFenceHandle fd) o s))
      = [EvDup fd (fst (sys_dup P fd (world s)))])
  /\ fst (fst (getFenceFd P (getFenceHandle fd) o s)) <> BAD_VALUE.
Proof.
  unfold getFenceHandle, getFenceFd.
  destruct (0 <=? fd) eqn:E.
  - apply Z.leb_le in E. simpl. unfold data0. simpl.
    assert (E' : (0 <=? fd) = true) by (apply Z.leb_le; exact E).
    rewrite E'. run.
    destruct (sys_dup P fd (world s)) as [fd' w'].
    repeat apply conj.
    + intro; lia.
    + intros _. destruct (fd' <? 0); simpl; apply new_events_app.
    + destruct (fd' <? 0); simpl; discriminate.
  - apply Z.leb_gt in E. simpl. run. simpl.
    repeat apply conj.
    + reflexivity.
    + intro; lia.
    + discriminate.
Qed.

Lemma getFenceHandle_accepted_witness :
  getFenceFd Sim.platform (getFenceHandle (-1)) 0 Sim.fresh
    = ((NONE, -1), Sim.fresh)
  /\ new_events Sim.fresh
       (snd (getFenceFd Sim.platform (getFenceHandle 9) 0 Sim.fresh))
     = [EvDup 9 (fst (sys_dup Sim.platform 9 (world Sim.fresh)))].
Proof.
  split.
  - apply (proj1 (getFenceHandle_accepted Sim.platform (-1) 0 Sim.fresh)).
    reflexivity.
  - apply (proj1 (proj2 (getFenceHandle_accepted Sim.platform 9 0
                           Sim.fresh))).
    discriminate.
Defined.

(** ** lock: the remaining paths *)

(** When the acquire fence holds one descriptor and [dup] fails on it, the
    lock methods answer [NO_RESOURCES]; the failed [dup] is the only call
    made, so no fence is waited on and the driver is not called. *)
Theorem lock_dup_failure {W : Type} (P : Platform W)
    (G : V2_0.GbmModule W) (D : V4_0.DrmGralloc W)
    (h f : native_handle_t) (cpuUsage : Z) (accessRegion : Rect)
    (s : State W) :
  numFds f = 1 ->
  0 <= data0 f ->
  fst (sys_dup P (data0 f) (world s)) < 0 ->
  let s' :=
    mkState (snd (sys_dup P (data0 f) (world s)))
      (trace s ++ [EvDup (data0 f) (fst (sys_dup P (data0 f) (world s)))]) in
  V2_0.lock P G (Some h) cpuUsage accessRegion (Some f) s
    = ((NO_RESOURCES, nullptr), s')
  /\ V2_0.lockYCbCr P G (Some h) cpuUsage accessRegion (Some f) s
    = ((NO_RESOURCES, YCbCrLayout_zero), s')
  /\ V4_0.lock P D (Some h) cpuUsage accessRegion (Some f) s
    = ((NO_RESOURCES, nullptr), s').
Proof.
  intros Hn Hd Hdup s'. subst s'.
  assert (E : getFenceFd P (Some f) (-1) s =
              ((NO_RESOURCES, -1),
               mkState (snd (sys_dup P (data0 f) (world s)))
                 (trace s ++ [EvDup (data0 f)
                                (fst (sys_dup P (data0 f) (world s)))]))).
  { unfold getFenceFd. rewrite Hn. simpl.
    apply Z.leb_le in Hd. rewrite Hd. run.
    destruct (sys_dup P (data0 f) (world s)) as [fd' w']. simpl in *.
    apply Z.ltb_lt in Hdup. rewrite Hdup. reflexivity. }
  unfold V2_0.lock, V2_0.lockYCbCr, V4_0.lock, bind.
  rewrite E. repeat split.
Qed.

Lemma lock_dup_failure_witness :
  V2_0.lock SimFaults.platform_no_dup Sim.gbm (Some Sim.buf) 3
    (mkRect 0 0 16 16) (Some Sim.fence9) Sim.registered
    = ((NO_RESOURCES, nullptr), mkState 1 [EvDup 9 (-1)])
  /\ V2_0.lockYCbCr SimFaults.platform_no_dup Sim.gbm (Some Sim.buf) 3
    (mkRect 0 0 16 16) (Some Sim.fence9) Sim.registered
    = ((NO_RESOURCES, YCbCrLayout_zero), mkState 1 [EvDup 9 (-1)])
  /\ V4_0.lock SimFaults.platform_no_dup Sim.drm (Some Sim.buf) 3
    (mkRect 0 0 16 16) (Some Sim.fence9) Sim.registered
    = ((NO_RESOURCES, nullptr), mkState 1 [EvDup 9 (-1)]).
Proof.
  apply (lock_dup_failure SimFaults.platform_no_dup Sim.gbm Sim.drm
           Sim.buf Sim.fence9 3 (mkRect 0 0 16 16) Sim.registered).
  - reflexivity.
  - vm_compute. discriminate.
  - reflexivity.
Defined.

Ltac run_in E := cbv [bind ret emit extcall extcall_] in E.

(** Walk through the branches of a run [E : ... = (e, p, s')] of a lock
    method and close the goal that an error comes with no mapping. *)
Ltac no_mapping E :=
  repeat match type of E with
         | context [let (_, _) := ?x in _] => destruct x eqn:?
         | context [if ?c then _ else _] => destruct c eqn:?
         end;
  injection E as <- <- <-;
  let Herr := fresh "Herr" in
  intro Herr; try reflexivity;
  exfalso; apply Herr;
  repeat match goal with
         | H : negb _ = false |- _ => apply negb_false_iff in H
         | H : Error_eqb _ _ = true |- _ => apply Error_eqb_eq in H
         end;
  congruence.

(** Whatever the arguments, a lock method that does not answer [NONE]
    hands out no mapping: the pointer is null and the layout is all zero. *)
Theorem lock_error_gives_no_mapping {W : Type} (P : Platform W)
    (G : V2_0.GbmModule W) (D : V4_0.DrmGralloc W)
    (buffer : handle_ptr) (cpuUsage : Z) (accessRegion : Rect)
    (acquireFence : hidl_handle) (s : State W) :
  (fst (fst (V2_0.lock P G buffer cpuUsage accessRegion acquireFence s))
     <> NONE ->
   snd (fst (V2_0.lock P G buffer cpuUsage accessRegion acquireFence s))
     = nullptr)
  /\ (fst (fst (V2_0.lockYCbCr P G buffer cpuUsage accessRegion
                  acquireFence s)) <> NONE ->
      snd (fst (V2_0.lockYCbCr P G buffer cpuUsage accessRegion
                  acquireFence s)) = YCbCrLayout_zero)
  /\ (fst (fst (V4_0.lock P D buffer cpuUsage accessRegion acquireFence s))
        <> NONE ->
      snd (fst (V4_0.lock P D buffer cpuUsage accessRegion acquireFence s))
        = nullptr).
Proof.
  repeat apply conj.
  - destruct (V2_0.lock P G buffer cpuUsage accessRegion acquireFence s)
      as [[e p] s'] eqn:E. simpl.
    unfold V2_0.lock in E. destruct buffer as [h|]; run_in E; no_mapping E.
  - destruct (V2_0.lockYCbCr P G buffer cpuUsage accessRegion acquireFence s)
      as [[e p] s'] eqn:E. simpl.
    unfold V2_0.lockYCbCr in E.
    destruct buffer as [h|]; run_in E; no_mapping E.
  - destruct (V4_0.lock P D buffer cpuUsage accessRegion acquireFence s)
      as [[e p] s'] eqn:E. simpl.
    unfold V4_0.lock in E. destruct buffer as [h|]; run_in E; no_mapping E.
Qed.

Lemma lock_error_gives_no_mapping_witness :
  snd (fst (V2_0.lock Sim.platform Sim.gbm (Some Sim.buf) 3
              (mkRect 0 0 16 16) None Sim.fresh)) = nullptr
  /\ snd (fst (V2_0.lockYCbCr Sim.platform Sim.gbm (Some Sim.buf) 3
                 (mkRect 0 0 16 16) None Sim.fresh)) = YCbCrLayout_zero
  /\ snd (fst (V4_0.lock Sim.platform Sim.drm (Some Sim.buf) 3
                 (mkRect 0 0 16 16) None Sim.fresh)) = nullptr.
Proof.
  pose (H := lock_error_gives_no_mapping Sim.platform Sim.gbm Sim.drm
               (Some Sim.buf) 3 (mkRect 0 0 16 16) None Sim.fresh).
  repeat apply conj.
  - apply (proj1 H). vm_compute. discriminate.
  - apply (proj1 (proj2 H)). vm_compute. discriminate.
  - apply (proj2 (proj2 H)). vm_compute. discriminate.
Defined.

Lemma sync_events_none (evs : list Event) :
  forallb (fun e => negb (is_driver_call e || is_fence_wait e)) evs = true ->
  sync_events evs = [].
Proof.
  unfold sync_events. induction evs as [|e evs IH]; simpl; [reflexivity|].
  intro H. apply andb_true_iff in H. destruct H as [He Hr].
  apply negb_true_iff in He. rewrite He. exact (IH Hr).
Qed.

Lemma sync_events_app (a b : list Event) :
  sync_events (a ++ b) = sync_events a ++ sync_events b.
Proof. unfold sync_events. apply filter_app. Qed.

(** Whatever the arguments, a lock method either makes no fence wait and no
    driver call at all, or makes exactly one fence wait followed by exactly
    one driver lock call: the driver is never called before the fence has
    been waited on, and never twice. *)
Theorem lock_waits_before_driver {W : Type} (P : Platform W)
    (G : V2_0.GbmModule W) (D : V4_0.DrmGralloc W)
    (buffer : handle_ptr) (cpuUsage : Z) (accessRegion : Rect)
    (acquireFence : hidl_handle) (s : State W) :
  wait_then_lock
    (sync_events
       (new_events s
          (snd (V2_0.lock P G buffer cpuUsage accessRegion acquireFence s))))
    = true
  /\ wait_then_lock
       (sync_events
          (new_events s
             (snd (V2_0.lockYCbCr P G buffer cpuUsage accessRegion
                     acquireFence s)))) = true
  /\ wait_then_lock
       (sync_events
          (new_events s
             (snd (V4_0.lock P D buffer cpuUsage accessRegion
                     acquireFence s)))) = true.
Proof.
  destruct (getFenceFd_events P acquireFence (-1) s) as [evs0 [Ht Hall]].
  apply sync_events_none in Hall.
  repeat apply conj.
  - unfold V2_0.lock. destruct buffer as [h|];
      [|simpl; rewrite new_events_refl; reflexivity].
    unfold bind at 1.
    destruct (getFenceFd P acquireFence (-1) s) as [[e fd] [w1 t1]].
    simpl in Ht. subst t1.
    destruct (negb (Error_eqb e NONE)).
    + simpl. rewrite new_events_app, Hall. reflexivity.
    + run. simpl.
      destruct (V2_0.gbm_mod_lock _ _ _ _ _ _ _ _ _) as [[r p] w2].
      destruct (r =? 0); simpl; rewrite <- !app_assoc, new_events_app,
        sync_events_app, Hall; reflexivity.
  - unfold V2_0.lockYCbCr. destruct buffer as [h|];
      [|simpl; rewrite new_events_refl; reflexivity].
    unfold bind at 1.
    destruct (getFenceFd P acquireFence (-1) s) as [[e fd] [w1 t1]].
    simpl in Ht. subst t1.
    destruct (negb (Error_eqb e NONE)).
    + simpl. rewrite new_events_app, Hall. reflexivity.
    + run. simpl.
      destruct (V2_0.gbm_mod_lock_ycbcr _ _ _ _ _ _ _ _ _) as [[r p] w2].
      destruct (r =? 0); simpl; rewrite <- !app_assoc, new_events_app,
        sync_events_app, Hall; reflexivity.
  - unfold V4_0.lock. destruct buffer as [h|];
      [|simpl; rewrite new_events_refl; reflexivity].
    unfold bind at 1.
    destruct (getFenceFd P acquireFence (-1) s) as [[e fd] [w1 t1]].
    simpl in Ht. subst t1.
    destruct (negb (Error_eqb e NONE)).
    + simpl. rewrite new_events_app, Hall. reflexivity.
    + run. simpl.
      destruct (V4_0.drm_lock _ _ _ _) as [[r p] w2].
      destruct (r =? 0); simpl; rewrite <- !app_assoc, new_events_app,
        sync_events_app, Hall; reflexivity.
Qed.

(** ** Null buffers *)


(** ** unlock: the release fence *)

(** [unlock] (both mappers) and [flushLockedBuffer] never hand out a
    release fence descriptor: the fence handle is null on every path.  They
    answer [NONE] exactly when the buffer is non-null and the driver's
    unlock call reports status 0. *)
Theorem unlock_fence_always_null {W : Type}
    (G : V2_0.GbmModule W) (D : V4_0.DrmGralloc W)
    (buffer : handle_ptr) (s : State W) :
  (snd (fst (V2_0.unlock G buffer s)) = None
   /\ Error_eqb (fst (fst (V2_0.unlock G buffer s))) NONE
      = match buffer with
        | Some h => fst (V2_0.gbm_mod_unlock G h (world s)) =? 0
        | None => false
        end)
  /\ (snd (fst (V4_0.unlock D buffer s)) = None
      /\ Error_eqb (fst (fst (V4_0.unlock D buffer s))) NONE
         = match buffer with
           | Some h => fst (V4_0.drm_unlock D h (world s)) =? 0
           | None => false
           end)
  /\ snd (fst (V4_0.flushLockedBuffer D buffer s)) = None.
Proof.
  unfold V2_0.unlock, V4_0.unlock, V4_0.flushLockedBuffer.
  destruct buffer as [h|]; [|repeat split].
  run.
  destruct (V2_0.gbm_mod_unlock G h (world s)) as [r2 w2].
  destruct (V4_0.drm_unlock D h (world s)) as [r4 w4].
  simpl. destruct (r2 =? 0), (r4 =? 0); repeat split.
Qed.

(** ** Usage bits *)

(** The usage the 2.0 lock methods give the driver is a 32-bit signed
    value congruent to the caller's usage modulo 2^32, and it is the
    caller's usage itself when that fits 32 signed bits; the platform's
    [CPU_WRITE_MASK] has no influence on it. *)
Theorem lock_usage_range {W : Type} (P : Platform W) (cpuUsage : Z) :
  - 2 ^ 31 <= V2_0.lock_usage P cpuUsage < 2 ^ 31
  /\ V2_0.lock_usage P cpuUsage mod 2 ^ 32 = cpuUsage mod 2 ^ 32
  /\ (- 2 ^ 31 <= cpuUsage < 2 ^ 31 -> V2_0.lock_usage P cpuUsage = cpuUsage).
Proof.
  rewrite lock_usage_truncates. unfold to_int32. repeat apply conj.
  - pose proof (Z.mod_pos_bound (cpuUsage + 2 ^ 31) (2 ^ 32)). lia.
  - pose proof (Z.mod_pos_bound (cpuUsage + 2 ^ 31) (2 ^ 32)). lia.
  - rewrite Zminus_mod_idemp_l. f_equal. lia.
  - intro H. rewrite Z.mod_small by lia. lia.
Qed.

Lemma lock_usage_range_witness :
  V2_0.lock_usage Sim.platform 51 = 51.
Proof.
  apply (proj2 (proj2 (lock_usage_range Sim.platform 51))). lia.
Defined.

Lemma testbit_above_u64 (u n : Z) :
  0 <= u < 2 ^ 64 -> 64 <= n -> Z.testbit u n = false.
Proof.
  intros Hu Hn.
  destruct (Z.eq_dec u 0) as [->|Hz]; [apply Z.bits_0|].
  apply Z.bits_above_log2; [lia|].
  assert (Z.log2 u < 64) by (apply Z.log2_lt_pow2; lia). lia.
Qed.

Lemma testbit_all_ones_64 (n : Z) :
  0 <= n -> Z.testbit (2 ^ 64 - 1) n = (n <? 64).
Proof.
  intro Hn. change (2 ^ 64 - 1) with (Z.ones 64).
  destruct (n <? 64) eqn:E.
  - apply Z.ones_spec_low. apply Z.ltb_lt in E. lia.
  - apply Z.ones_spec_high. apply Z.ltb_ge in E. lia.
Qed.

(** For a 64-bit [u]: no bit of [u] survives [& ~m] exactly when every bit
    of [u] is in [m]. *)
Lemma outside_mask_zero_iff (u m : Z) :
  0 <= u < 2 ^ 64 ->
  Z.land u (not64 m) = 0 <-> Z.land u m = u.
Proof.
  intro Hu. unfold not64. split; intro H.
  - apply Z.bits_inj'; intros n Hn. rewrite Z.land_spec.
    assert (B : Z.testbit (Z.land u (Z.lxor m (2 ^ 64 - 1))) n = false)
      by (rewrite H; apply Z.bits_0).
    rewrite Z.land_spec, Z.lxor_spec, testbit_all_ones_64 in B by exact Hn.
    destruct (n <? 64) eqn:E.
    + destruct (Z.testbit u n), (Z.testbit m n); simpl in *; congruence.
    + apply Z.ltb_ge in E. rewrite (testbit_above_u64 u n Hu E). reflexivity.
  - apply Z.bits_inj'; intros n Hn.
    rewrite Z.bits_0, Z.land_spec, Z.lxor_spec, testbit_all_ones_64
      by exact Hn.
    assert (B : Z.testbit (Z.land u m) n = Z.testbit u n) by (rewrite H; auto).
    rewrite Z.land_spec in B.
    destruct (n <? 64) eqn:E.
    + destruct (Z.testbit u n), (Z.testbit m n); simpl in *; congruence.
    + apply Z.ltb_ge in E. rewrite (testbit_above_u64 u n Hu E). reflexivity.
Qed.

Lemma usage_warning_nil (U : BufferUsage) (u : Z) :
  usage_warning U u = [] <->
  Z.land u (not64 (getValidBufferUsageMask U)) = 0.
Proof.
  unfold usage_warning.
  destruct (Z.land u (not64 (getValidBufferUsageMask U)) =? 0) eqn:E.
  - apply Z.eqb_eq in E. tauto.
  - apply Z.eqb_neq in E. split; [discriminate | contradiction].
Qed.

(** Whether a bit outside [m] survives, as the test [createDescriptor]
    makes, against the test [u & m == u]. *)
Lemma outside_mask_eqb (u m : Z) :
  0 <= u < 2 ^ 64 ->
  (Z.land u (not64 m) =? 0) = (Z.land u m =? u).
Proof.
  intro Hu. pose proof (outside_mask_zero_iff u m Hu) as [H1 H2].
  destruct (Z.land u (not64 m) =? 0) eqn:E1;
    destruct (Z.land u m =? u) eqn:E2; try reflexivity.
  - apply Z.eqb_eq in E1. apply Z.eqb_neq in E2. tauto.
  - apply Z.eqb_neq in E1. apply Z.eqb_eq in E2. tauto.
Qed.

(** [createDescriptor] logs its usage warning exactly for a descriptor
    that passes validation and whose 64-bit usage has a bit outside
    [getValidBufferUsageMask]; a descriptor that fails validation draws no
    warning. *)
Theorem createDescriptor_warns_outside_mask {W : Type} (P : Platform W)
    (G : V2_0.GbmModule W) (T : V4_0.Gralloc4)
    (i2 : V2_0.BufferDescriptorInfo) (i4 : V4_0.BufferDescriptorInfo)
    (s : State W) :
  let mask := getValidBufferUsageMask (usage_bits P) in
  let e2 := new_events s (snd (V2_0.createDescriptor P G i2 s)) in
  let e4 := new_events s (snd (V4_0.createDescriptor P T i4 s)) in
  (V2_0.validate i2 = NONE -> 0 <= V2_0.usage i2 < 2 ^ 64 ->
   existsb is_warning e2
     = negb (Z.land (V2_0.usage i2) mask =? V2_0.usage i2))
  /\ (V2_0.validate i2 <> NONE -> existsb is_warning e2 = false)
  /\ (V4_0.validate i4 = NONE -> 0 <= V4_0.usage i4 < 2 ^ 64 ->
      existsb is_warning e4
        = negb (Z.land (V4_0.usage i4) mask =? V4_0.usage i4))
  /\ (V4_0.validate i4 <> NONE -> existsb is_warning e4 = false).
Proof.
  intros mask e2 e4. subst mask e2 e4.
  unfold V2_0.createDescriptor, V4_0.createDescriptor.
  destruct (V4_0.encodeBufferDescriptorInfo T i4 []) as [r d].
  repeat apply conj.
  - intros Hv Hu. rewrite Hv. cbn [Error_eqb].
    rewrite <- (outside_mask_eqb _ _ Hu). run.
    destruct (Z.land (V2_0.usage i2) _ =? 0); cbn [negb fst snd].
    + rewrite new_events_refl. reflexivity.
    + rewrite new_events_app. reflexivity.
  - intro Hv. destruct (Error_eqb (V2_0.validate i2) NONE) eqn:E.
    + apply Error_eqb_eq in E. contradiction.
    + cbn [ret snd]. rewrite new_events_refl. reflexivity.
  - intros Hv Hu. rewrite Hv. cbn [Error_eqb].
    rewrite <- (outside_mask_eqb _ _ Hu). run.
    destruct (Z.land (V4_0.usage i4) _ =? 0), (r =? 0);
      cbn [negb fst snd world trace];
      rewrite <- ?app_assoc, ?new_events_app, ?new_events_refl; reflexivity.
  - intro Hv. destruct (Error_eqb (V4_0.validate i4) NONE) eqn:E.
    + apply Error_eqb_eq in E. contradiction.
    + cbn [ret snd]. rewrite new_events_refl. reflexivity.
Qed.

Lemma createDescriptor_warns_outside_mask_witness :
  existsb is_warning
    (new_events Sim.fresh
       (snd (V2_0.createDescriptor Sim.platform Sim.gbm
               (V2_0.mkInfo 640 480 1 1 (2 ^ 40 + 3)) Sim.fresh))) = true
  /\ existsb is_warning
       (new_events Sim.fresh
          (snd (V2_0.createDescriptor Sim.platform Sim.gbm
                  (V2_0.mkInfo 0 480 1 1 (2 ^ 40 + 3)) Sim.fresh))) = false
  /\ existsb is_warning
       (new_events Sim.fresh
          (snd (V4_0.createDescriptor Sim.platform Sim.gralloc4
                  (V4_0.mkInfo "b" 640 480 1 1 51 0) Sim.fresh))) = false
  /\ existsb is_warning
       (new_events Sim.fresh
          (snd (V4_0.createDescriptor Sim.platform Sim.gralloc4
                  (V4_0.mkInfo "b" 640 480 7 1 (2 ^ 40) 0) Sim.fresh)))
     = false.
Proof.
  repeat apply conj.
  - apply (proj1 (createDescriptor_warns_outside_mask Sim.platform Sim.gbm
             Sim.gralloc4 (V2_0.mkInfo 640 480 1 1 (2 ^ 40 + 3))
             (V4_0.mkInfo "b" 640 480 1 1 51 0) Sim.fresh));
      [reflexivity | simpl; lia].
  - apply (proj1 (proj2 (createDescriptor_warns_outside_mask Sim.platform
             Sim.gbm Sim.gralloc4 (V2_0.mkInfo 0 480 1 1 (2 ^ 40 + 3))
             (V4_0.mkInfo "b" 640 480 1 1 51 0) Sim.fresh))).
    vm_compute. discriminate.
  - apply (proj1 (proj2 (proj2 (createDescriptor_warns_outside_mask
             Sim.platform Sim.gbm Sim.gralloc4
             (V2_0.mkInfo 640 480 1 1 (2 ^ 40 + 3))
             (V4_0.mkInfo "b" 640 480 1 1 51 0) Sim.fresh))));
      [reflexivity | simpl; lia].
  - apply (proj2 (proj2 (proj2 (createDescriptor_warns_outside_mask
             Sim.platform Sim.gbm Sim.gralloc4
             (V2_0.mkInfo 640 480 1 1 (2 ^ 40 + 3))
             (V4_0.mkInfo "b" 640 480 7 1 (2 ^ 40) 0) Sim.fresh)))).
    vm_compute. discriminate.
Defined.

Lemma flag_inside_mask (U : BufferUsage) (f : Z) :
  In f (usage_flags U) -> Z.land f (getValidBufferUsageMask U) = f.
Proof.
  intro Hin. apply Z.bits_inj'; intros n _.
  unfold getValidBufferUsageMask. cbn [fold_left].
  rewrite Z.land_spec, !Z.lor_spec.
  destruct (Z.testbit f n) eqn:Ef; [|reflexivity].
  cbn [usage_flags In] in Hin.
  repeat (destruct Hin as [<- | Hin];
          [rewrite Ef, ?orb_true_r; reflexivity|]).
  contradiction.
Qed.

Lemma or_flags_inside_mask (m : Z) (l : list Z) (acc : Z) :
  Z.land acc m = acc ->
  Forall (fun f => Z.land f m = f) l ->
  Z.land (fold_left Z.lor l acc) m = fold_left Z.lor l acc.
Proof.
  revert acc. induction l as [|f l IH]; intros acc Hacc Hl; [exact Hacc|].
  inversion Hl as [|? ? Hf Hl']; subst. simpl. apply IH; [|exact Hl'].
  rewrite Z.land_lor_distr_l, Hacc, Hf. reflexivity.
Qed.

Lemma lor_u64 (a b : Z) :
  0 <= a < 2 ^ 64 -> 0 <= b < 2 ^ 64 -> 0 <= Z.lor a b < 2 ^ 64.
Proof.
  intros Ha Hb.
  assert (Hn : 0 <= Z.lor a b) by (apply Z.lor_nonneg; lia).
  split; [exact Hn|].
  destruct (Z.eq_dec (Z.lor a b) 0) as [->|Hz]; [lia|].
  apply Z.log2_lt_pow2; [lia|].
  rewrite Z.log2_lor by lia.
  assert (La : a = 0 \/ Z.log2 a < 64).
  { destruct (Z.eq_dec a 0); [auto | right; apply Z.log2_lt_pow2; lia]. }
  assert (Lb : b = 0 \/ Z.log2 b < 64).
  { destruct (Z.eq_dec b 0); [auto | right; apply Z.log2_lt_pow2; lia]. }
  destruct La as [-> | La], Lb as [-> | Lb];
    change (Z.log2 0) with 0 in *; lia.
Qed.

Lemma or_flags_u64 (l : list Z) (acc : Z) :
  0 <= acc < 2 ^ 64 ->
  Forall (fun f => 0 <= f < 2 ^ 64) l ->
  0 <= fold_left Z.lor l acc < 2 ^ 64.
Proof.
  revert acc. induction l as [|f l IH]; intros acc Hacc Hl; [exact Hacc|].
  inversion Hl as [|? ? Hf Hl']; subst. simpl.
  apply IH; [apply lor_u64; assumption | exact Hl'].
Qed.

(** When the platform's flags are 64-bit values, [createDescriptor]
    accepts in silence a descriptor that passes validation and whose usage
    is put together by or-ing any of the seventeen flags
    [getValidBufferUsageMask] names: it answers [NONE] (in 4.0 given
    encoder status 0) and the state, trace included, is as it was. *)
Theorem createDescriptor_silent_on_named_flags {W : Type} (P : Platform W)
    (G : V2_0.GbmModule W) (T : V4_0.Gralloc4)
    (i2 : V2_0.BufferDescriptorInfo) (i4 : V4_0.BufferDescriptorInfo)
    (l : list Z) (s : State W) :
  flags_are_u64 (usage_bits P) ->
  incl l (usage_flags (usage_bits P)) ->
  (V2_0.validate i2 = NONE -> V2_0.usage i2 = or_flags l ->
   V2_0.createDescriptor P G i2 s
     = ((NONE, V2_0.grallocEncodeBufferDescriptor G i2), s))
  /\ (V4_0.validate i4 = NONE -> V4_0.usage i4 = or_flags l ->
      fst (V4_0.encodeBufferDescriptorInfo T i4 []) = 0 ->
      V4_0.createDescriptor P T i4 s
        = ((NONE, snd (V4_0.encodeBufferDescriptorInfo T i4 [])), s)).
Proof.
  intros HU Hl. unfold flags_are_u64 in HU. rewrite Forall_forall in HU.
  assert (Hz : Z.land (or_flags l)
                 (not64 (getValidBufferUsageMask (usage_bits P))) = 0).
  { apply outside_mask_zero_iff.
    - unfold or_flags. apply or_flags_u64; [lia|].
      apply Forall_forall. intros f Hf. apply HU, Hl, Hf.
    - unfold or_flags. apply or_flags_inside_mask; [apply Z.land_0_l|].
      apply Forall_forall. intros f Hf. apply flag_inside_mask, Hl, Hf. }
  split.
  - intros Hv Hu. unfold V2_0.createDescriptor.
    rewrite Hv, Hu, Hz. reflexivity.
  - intros Hv Hu He. unfold V4_0.createDescriptor.
    rewrite Hv, Hu, Hz.
    destruct (V4_0.encodeBufferDescriptorInfo T i4 []) as [r d].
    simpl in He. subst r. reflexivity.
Qed.

Lemma createDescriptor_silent_on_named_flags_witness :
  V2_0.createDescriptor Sim.platform Sim.gbm
    (V2_0.mkInfo 640 480 1 1
       (or_flags [CPU_READ_MASK Sim.usage; GPU_TEXTURE Sim.usage;
                  VENDOR_MASK_HI Sim.usage])) Sim.fresh
  = ((NONE, [640; 480; 1; 1; 271; 4294901760]), Sim.fresh)
  /\ V4_0.createDescriptor Sim.platform Sim.gralloc4
       (V4_0.mkInfo "b" 640 480 1 1
          (or_flags [CPU_READ_MASK Sim.usage; GPU_TEXTURE Sim.usage;
                     VENDOR_MASK_HI Sim.usage]) 0) Sim.fresh
     = ((NONE, [128; 2; 0; 0; 224; 1; 0; 0; 1; 0; 0; 0; 1; 0; 0; 0]),
        Sim.fresh).
Proof.
  assert (HU : flags_are_u64 (usage_bits Sim.platform)).
  { unfold flags_are_u64, usage_flags.
    repeat (apply Forall_cons;
            [vm_compute; split; [discriminate | reflexivity]|]).
    apply Forall_nil. }
  assert (Hl : incl [CPU_READ_MASK Sim.usage; GPU_TEXTURE Sim.usage;
                     VENDOR_MASK_HI Sim.usage]
                 (usage_flags (usage_bits Sim.platform))).
  { intros f Hf. cbn [In] in Hf. unfold usage_flags. cbn [In].
    repeat (destruct Hf as [<- | Hf]; [tauto|]). contradiction. }
  pose (u := or_flags [CPU_READ_MASK Sim.usage; GPU_TEXTURE Sim.usage;
                       VENDOR_MASK_HI Sim.usage]).
  pose (H := createDescriptor_silent_on_named_flags Sim.platform Sim.gbm
               Sim.gralloc4 (V2_0.mkInfo 640 480 1 1 u)
               (V4_0.mkInfo "b" 640 480 1 1 u 0) _ Sim.fresh HU Hl).
  split.
  - exact (proj1 H eq_refl eq_refl).
  - exact (proj2 H eq_refl eq_refl eq_refl).
Defined.

(** ** createDescriptor: the whole decision *)

Lemma validate_v2_decision (i : V2_0.BufferDescriptorInfo) :
  Error_eqb (V2_0.validate i) NONE
    = negb (V2_0.width i =? 0) && negb (V2_0.height i =? 0)
      && (V2_0.layerCount i =? 1) && negb (V2_0.format i =? 0)
  /\ In (V2_0.validate i) [NONE; BAD_VALUE; UNSUPPORTED].
Proof.
  unfold V2_0.validate.
  destruct (V2_0.width i =? 0), (V2_0.height i =? 0);
    destruct (V2_0.layerCount i =? 0) eqn:L0;
    destruct (V2_0.layerCount i =? 1) eqn:L1;
    try (apply Z.eqb_eq in L0; apply Z.eqb_eq in L1; lia);
    destruct (V2_0.format i =? 0); simpl; tauto.
Qed.

Lemma validate_v4_decision (i : V4_0.BufferDescriptorInfo) :
  Error_eqb (V4_0.validate i) NONE
    = negb (V4_0.width i =? 0) && negb (V4_0.height i =? 0)
      && (V4_0.layerCount i =? 1) && negb (V4_0.format i =? 0)
  /\ In (V4_0.validate i) [NONE; BAD_VALUE; UNSUPPORTED].
Proof.
  unfold V4_0.validate.
  destruct (V4_0.width i =? 0), (V4_0.height i =? 0);
    destruct (V4_0.layerCount i =? 0) eqn:L0;
    destruct (V4_0.layerCount i =? 1) eqn:L1;
    try (apply Z.eqb_eq in L0; apply Z.eqb_eq in L1; lia);
    destruct (V4_0.format i =? 0); simpl; tauto.
Qed.

(** The 2.0 [createDescriptor] answers [NONE] exactly for a descriptor
    with non-zero width and height, one layer and a non-zero format; the
    4.0 one needs, on top of that, status 0 from the platform's encoder.
    The 2.0 method returns an empty descriptor whenever it reports an
    error, and neither method ever reports anything but [NONE],
    [BAD_VALUE] or [UNSUPPORTED]. *)
Theorem createDescriptor_decision {W : Type} (P : Platform W)
    (G : V2_0.GbmModule W) (T : V4_0.Gralloc4)
    (i2 : V2_0.BufferDescriptorInfo) (i4 : V4_0.BufferDescriptorInfo)
    (s : State W) :
  let r2 := fst (V2_0.createDescriptor P G i2 s) in
  let r4 := fst (V4_0.createDescriptor P T i4 s) in
  Error_eqb (fst r2) NONE
    = negb (V2_0.width i2 =? 0) && negb (V2_0.height i2 =? 0)
      && (V2_0.layerCount i2 =? 1) && negb (V2_0.format i2 =? 0)
  /\ Error_eqb (fst r4) NONE
    = negb (V4_0.width i4 =? 0) && negb (V4_0.height i4 =? 0)
      && (V4_0.layerCount i4 =? 1) && negb (V4_0.format i4 =? 0)
      && (fst (V4_0.encodeBufferDescriptorInfo T i4 []) =? 0)
  /\ (Error_eqb (fst r2) NONE = false -> snd r2 = [])
  /\ In (fst r2) [NONE; BAD_VALUE; UNSUPPORTED]
  /\ In (fst r4) [NONE; BAD_VALUE; UNSUPPORTED].
Proof.
  intros r2 r4. subst r2 r4.
  destruct (validate_v2_decision i2) as [D2 I2].
  destruct (validate_v4_decision i4) as [D4 I4].
  rewrite <- D2, <- D4.
  unfold V2_0.createDescriptor, V4_0.createDescriptor.
  destruct (V4_0.encodeBufferDescriptorInfo T i4 []) as [r d].
  cbn [fst]. destruct (r =? 0) eqn:Er.
  all: destruct (Error_eqb (V2_0.validate i2) NONE) eqn:E2;
    destruct (Error_eqb (V4_0.validate i4) NONE) eqn:E4;
    try (apply Error_eqb_eq in E2; rewrite E2 in * );
    try (apply Error_eqb_eq in E4; rewrite E4 in * );
    run; rewrite ?Er; cbn [negb];
    repeat match goal with
           | |- context [if ?c then _ else _] => destruct c
           end;
    cbn [fst snd negb]; rewrite ?E2, ?E4;
    repeat apply conj;
    try reflexivity; try discriminate; try assumption; simpl; tauto.
Qed.

Lemma createDescriptor_decision_witness :
  snd (fst (V2_0.createDescriptor Sim.platform Sim.gbm
              (V2_0.mkInfo 640 480 1 0 3) Sim.fresh)) = [].
Proof.
  apply (proj1 (proj2 (proj2 (createDescriptor_decision Sim.platform Sim.gbm
           Sim.gralloc4 (V2_0.mkInfo 640 480 1 0 3)
           (V4_0.mkInfo "b" 640 480 1 0 3 0) Sim.fresh)))).
  reflexivity.
Defined.

(** [createDescriptor] never reaches the driver or the system: whatever
    the descriptor, it calls no GBM or DRM function, waits on no fence,
    duplicates no descriptor and touches no native handle, so the world is
    as it was and everything added to the trace is a log entry.  (The
    descriptor encoder it does call is a platform function that only
    fills the vector it is given.) *)
Theorem createDescriptor_is_local {W : Type} (P : Platform W)
    (G : V2_0.GbmModule W) (T : V4_0.Gralloc4)
    (i2 : V2_0.BufferDescriptorInfo) (i4 : V4_0.BufferDescriptorInfo)
    (s : State W) :
  let s2 := snd (V2_0.createDescriptor P G i2 s) in
  let s4 := snd (V4_0.createDescriptor P T i4 s) in
  world s2 = world s
  /\ forallb is_log (new_events s s2) = true
  /\ world s4 = world s
  /\ forallb is_log (new_events s s4) = true.
Proof.
  intros s2 s4. subst s2 s4.
  unfold V2_0.createDescriptor, V4_0.createDescriptor.
  destruct (V4_0.encodeBufferDescriptorInfo T i4 []) as [r d].
  destruct (Error_eqb (V2_0.validate i2) NONE),
    (Error_eqb (V4_0.validate i4) NONE); run;
    repeat match goal with
           | |- context [if ?c then _ else _] => destruct c
           end;
    cbn [fst snd world trace];
    rewrite <- ?app_assoc, ?new_events_app, ?new_events_refl;
    repeat apply conj; reflexivity.
Qed.

(** ** Metadata and support queries (4.0) *)

(** Besides [get], the metadata accessors never succeed: [set] answers
    [BAD_BUFFER] or [UNSUPPORTED], [getReservedRegion] likewise with a null
    region of size 0, and [getFromBufferDescriptorInfo] answers
    [UNSUPPORTED] with empty metadata for every metadata type, the one
    [get] supports included.  None of them, nor [get], touches the
    state. *)
Theorem metadata_is_read_only {W : Type} (T : V4_0.Gralloc4)
    (buffer : handle_ptr) (mt : MetadataType) (md : V4_0.hidl_vec_u8)
    (info : V4_0.BufferDescriptorInfo) (s : State W) :
  fst (V4_0.set buffer mt md s) <> NONE
  /\ fst (fst (fst (V4_0.getReservedRegion buffer s))) <> NONE
  /\ snd (fst (fst (V4_0.getReservedRegion buffer s))) = nullptr
  /\ snd (fst (V4_0.getReservedRegion buffer s)) = 0
  /\ V4_0.getFromBufferDescriptorInfo info mt s = ((UNSUPPORTED, []), s)
  /\ snd (V4_0.set buffer mt md s) = s
  /\ snd (V4_0.getReservedRegion buffer s) = s
  /\ snd (V4_0.get T buffer mt s) = s.
Proof.
  unfold V4_0.set, V4_0.getReservedRegion, V4_0.get.
  destruct buffer as [h|]; simpl;
    destruct (V4_0.isStandardMetadataType T mt
              && (V4_0.getStandardMetadataTypeValue T mt
                  =? V4_0.StandardMetadataType_DATASPACE T));
    repeat apply conj; try reflexivity; discriminate.
Qed.

(** [isSupported] answers [true] for every descriptor, those that
    [createDescriptor] turns down included. *)
Theorem isSupported_ignores_validation {W : Type} (P : Platform W)
    (T : V4_0.Gralloc4) (info : V4_0.BufferDescriptorInfo) (s : State W) :
  V4_0.validate info <> NONE ->
  V4_0.isSupported info s = ((NONE, true), s)
  /\ V4_0.createDescriptor P T info s = ((V4_0.validate info, []), s).
Proof.
  intro H. split; [reflexivity|].
  unfold V4_0.createDescriptor.
  destruct (Error_eqb (V4_0.validate info) NONE) eqn:E; [|reflexivity].
  apply Error_eqb_eq in E. contradiction.
Qed.

Lemma isSupported_ignores_validation_witness :
  V4_0.isSupported (V4_0.mkInfo "b" 0 480 4 0 3 0) Sim.fresh
    = ((NONE, true), Sim.fresh)
  /\ V4_0.createDescriptor Sim.platform Sim.gralloc4
       (V4_0.mkInfo "b" 0 480 4 0 3 0) Sim.fresh
     = ((BAD_VALUE, []), Sim.fresh).
Proof.
  apply (isSupported_ignores_validation Sim.platform Sim.gralloc4
           (V4_0.mkInfo "b" 0 480 4 0 3 0) Sim.fresh).
  vm_compute. discriminate.
Defined.

(** [getTransportSize] reports the descriptor and integer counts of the
    handle [importBuffer] handed out, which are those of the clone,
    converted to [uint32_t]: the counts themselves when they are
    non-negative 32-bit values. *)
Theorem getTransportSize_of_import {W : Type} (P : Platform W)
    (D : V4_0.DrmGralloc W) (kms_fd : Z)
    (rawHandle : hidl_handle) (c : native_handle_t) (s : State W) :
  snd (fst (V4_0.importBuffer P D kms_fd rawHandle s)) = Some c ->
  let s1 := snd (V4_0.importBuffer P D kms_fd rawHandle s) in
  (exists raw, rawHandle = Some raw
     /\ fst (native_handle_clone P raw (world s)) = Some c)
  /\ V4_0.getTransportSize
       (snd (fst (V4_0.importBuffer P D kms_fd rawHandle s))) s1
     = ((NONE, to_uint32 (numFds c), to_uint32 (numInts c)), s1)
  /\ (0 <= numFds c < 2 ^ 32 -> 0 <= numInts c < 2 ^ 32 ->
      V4_0.getTransportSize
        (snd (fst (V4_0.importBuffer P D kms_fd rawHandle s))) s1
      = ((NONE, numFds c, numInts c), s1)).
Proof.
  intros H s1. subst s1. rewrite H. repeat apply conj.
  - unfold V4_0.importBuffer in H.
    destruct rawHandle as [raw|]; [|discriminate].
    exists raw. split; [reflexivity|].
    run_in H.
    destruct (native_handle_clone P raw (world s)) as [c' w1]. simpl in *.
    destruct (V4_0.drm_register D kms_fd c' w1) as [r w2].
    destruct (r =? 0); simpl in H; congruence.
  - reflexivity.
  - intros Hf Hi. unfold V4_0.getTransportSize, to_uint32, ret.
    rewrite !Z.mod_small by assumption. reflexivity.
Qed.

Lemma getTransportSize_of_import_witness :
  V4_0.getTransportSize
    (snd (fst (V4_0.importBuffer Sim.platform Sim.drm Sim.kms_fd
                 (Some Sim.buf) Sim.fresh)))
    (snd (V4_0.importBuffer Sim.platform Sim.drm Sim.kms_fd
            (Some Sim.buf) Sim.fresh))
  = ((NONE, 1, 2),
     snd (V4_0.importBuffer Sim.platform Sim.drm Sim.kms_fd
            (Some Sim.buf) Sim.fresh)).
Proof.
  apply (proj2 (proj2 (getTransportSize_of_import Sim.platform Sim.drm
                         Sim.kms_fd (Some Sim.buf) Sim.buf Sim.fresh
                         eq_refl))).
  - vm_compute. split; [discriminate | reflexivity].
  - vm_compute. split; [discriminate | reflexivity].
Defined.

(** ** Construction and destruction *)

(** The 4.0 constructor always completes: it asks for the property
    [gralloc.drm.kms] with default [/dev/dri/card0], opens the path it got
    with [O_RDWR | O_CLOEXEC] and keeps whatever [open] returned, logging
    an error when that is negative.  The destructor then closes exactly
    that descriptor, and only if [open] had succeeded. *)
Theorem Mapper4_lifecycle {W : Type} (sys : Lifecycle.Sys W)
    (w : W) (tr : list Lifecycle.SysEvent) :
  let pg := Lifecycle.property_get sys "gralloc.drm.kms" "/dev/dri/card0" w in
  let path := fst pg in
  let flags := Z.lor (Lifecycle.O_RDWR sys) (Lifecycle.O_CLOEXEC sys) in
  let op := Lifecycle.sys_open sys path flags (snd pg) in
  let fd := fst op in
  let built := Lifecycle.Mapper4_new sys (w, tr) in
  Lifecycle.kms_fd (fst built) = fd
  /\ Lifecycle.Mapper4_delete sys (fst built) (snd built)
     = (if fd <? 0 then snd op else Lifecycle.sys_close sys fd (snd op),
        tr
        ++ [Lifecycle.SysPropertyGet "gralloc.drm.kms" "/dev/dri/card0" path;
            Lifecycle.SysOpen path flags fd]
        ++ (if fd <? 0 then [Lifecycle.SysLogEs "failed to open %s" path]
            else [Lifecycle.SysClose fd])).
Proof.
  intros pg path flags op fd built. subst built fd op flags path pg.
  unfold Lifecycle.Mapper4_new, Lifecycle.Mapper4_delete.
  destruct (Lifecycle.property_get sys _ _ w) as [path w1]. cbn [fst snd].
  destruct (Lifecycle.sys_open sys path _ w1) as [fd w2]. cbn [fst snd].
  cbn [Lifecycle.kms_fd]. split; [reflexivity|].
  destruct (fd <? 0) eqn:E.
  - apply Z.ltb_lt in E.
    assert (E' : (0 <=? fd) = false) by (apply Z.leb_gt; exact E).
    rewrite E'. rewrite <- !app_assoc. reflexivity.
  - apply Z.ltb_ge in E.
    assert (E' : (0 <=? fd) = true) by (apply Z.leb_le; exact E).
    rewrite E'. rewrite <- !app_assoc. reflexivity.
Qed.

(** The 2.0 constructor always leaves a module behind, logging an error
    when [gbm_mod_init] reports one; the destructor therefore always calls
    [gbm_mod_deinit], once, on the module as [gbm_mod_init] left it, after
    a failed initialisation too. *)
Theorem Mapper2_lifecycle {W : Type} (sys : Lifecycle.Sys W)
    (w : W) (tr : list Lifecycle.SysEvent) :
  let ini := Lifecycle.gbm_mod_init sys (Lifecycle.mkGbmModule nullptr) w in
  let r := fst (fst ini) in
  let m := snd (fst ini) in
  let built := Lifecycle.Mapper2_new sys (w, tr) in
  Lifecycle.mModule (fst built) = Some m
  /\ Lifecycle.Mapper2_delete sys (fst built) (snd built)
     = (Lifecycle.gbm_mod_deinit sys m (snd ini),
        tr ++ [Lifecycle.SysGbmInit r]
        ++ (if r =? 0 then []
            else [Lifecycle.SysLogE "Failed Mapper() %d" r])
        ++ [Lifecycle.SysGbmDeinit]).
Proof.
  intros ini r m built. subst built m r ini.
  unfold Lifecycle.Mapper2_new, Lifecycle.Mapper2_delete.
  destruct (Lifecycle.gbm_mod_init sys _ w) as [[r m] w1]. cbn [fst snd].
  cbn [Lifecycle.mModule]. split; [reflexivity|].
  destruct (r =? 0); cbn [negb app]; rewrite <- ?app_assoc; reflexivity.
Qed.

(** The two life cycles on the simulated systems. *)
Example Mapper4_with_device :
  snd (Lifecycle.Mapper4_delete SimFaults.sys_ok
         (fst (Lifecycle.Mapper4_new SimFaults.sys_ok (0, [])))
         (snd (Lifecycle.Mapper4_new SimFaults.sys_ok (0, []))))
  = [Lifecycle.SysPropertyGet "gralloc.drm.kms" "/dev/dri/card0"
       "/dev/dri/card0";
     Lifecycle.SysOpen "/dev/dri/card0" 524290 5;
     Lifecycle.SysClose 5].
Proof. reflexivity. Qed.

Example Mapper4_without_device :
  snd (Lifecycle.Mapper4_delete SimFaults.sys_no_device
         (fst (Lifecycle.Mapper4_new SimFaults.sys_no_device (0, [])))
         (snd (Lifecycle.Mapper4_new SimFaults.sys_no_device (0, []))))
  = [Lifecycle.SysPropertyGet "gralloc.drm.kms" "/dev/dri/card0"
       "/dev/dri/card0";
     Lifecycle.SysOpen "/dev/dri/card0" 524290 (-1);
     Lifecycle.SysLogEs "failed to open %s" "/dev/dri/card0"].
Proof. reflexivity. Qed.

Example Mapper2_without_back_end :
  snd (Lifecycle.Mapper2_delete SimFaults.sys_no_device
         (fst (Lifecycle.Mapper2_new SimFaults.sys_no_device (0, [])))
         (snd (Lifecycle.Mapper2_new SimFaults.sys_no_device (0, []))))
  = [Lifecycle.SysGbmInit (-22);
     Lifecycle.SysLogE "Failed Mapper() %d" (-22);
     Lifecycle.SysGbmDeinit].
Proof. reflexivity. Qed.
